(** * Gym Game bot: a shallow embedding of [main.py] and its properties

    The bot keeps two document collections (users and games), one
    conversation per (chat, user) pair for the three-step setup dialogue,
    and a per-user scratch dictionary ([context.user_data]).  Handlers are
    embedded as computations in a state-and-exception monad over the part
    of the world a handler can touch; the dispatcher and the cron job are
    functions on the whole world.

    Embedded handlers: [get_display_name], [start], [select_mode],
    [set_duration], [confirm_penalties], [claim], [leaderboard],
    [end_game], [reset], [end_day], [daily_summary], [check_game_end],
    [join], [admin_override], [set_points].

    Conventions.
    - A calendar date is its day ordinal (a [Z]); [str(date)] is injective,
      so the stored [last_claim] string is modelled by the ordinal itself.
    - A UTC timestamp is a number of microseconds; [timedelta.days] is the
      floor of the difference divided by the length of a day.  A datetime
      also carries whether it has a time zone: [datetime.now(pytz.UTC)]
      has one, a date read back from the store has none, and subtracting
      one kind from the other raises [TypeError].
    - [random.choice([True, False])] and the clock are inputs of the
      handler that reads them. *)

From Stdlib Require Import ZArith List Bool String Ascii Sorted Lia.
From stdpp Require Import base option list strings gmap.
Import ListNotations.
Local Open Scope string_scope.
Local Open Scope list_scope.
Local Open Scope Z_scope.

(** ** Documents *)

(** The sender of a Telegram message ([update.message.from_user]). *)
Record TgUser := mkTgUser {
  tg_id : Z;
  username : option string;
  first_name : option string;
  last_name : option string
}.

Record Update := mkUpdate {
  chat_id : Z;
  from_user : TgUser;
  text : string
}.

(** A document of [users_collection]. *)
Record User := mkUser {
  user_id : Z;
  display_name : string;
  points : Z;
  streak : Z;
  last_claim : option Z
}.

(** A document of [games_collection].  [mode] and [duration] hold the
    text the initiator typed; the always-empty [scores] field is left
    out. *)
Record Game := mkGame {
  game_id : Z;
  mode : string;
  duration : string;
  penalties : bool;
  team_1 : list string;
  team_2 : list string;
  active : bool;
  day : Z;
  start_date : Z
}.

(** [context.user_data]: a dictionary whose keys are set one by one. *)
Record UserData := mkUserData {
  initiator_id : option Z;
  ud_mode : option string;
  ud_duration : option string;
  ud_penalties : option bool;
  ud_team_1 : option (list string);
  ud_team_2 : option (list string)
}.

Definition empty_user_data : UserData := mkUserData None None None None None None.

(** Conversation states; [END] is [ConversationHandler.END]. *)
Inductive ConvState := SELECT_MODE | SET_DURATION | CONFIRM_PENALTIES.

Inductive Next := Goto (s : ConvState) | END.

Inductive Team := TeamA | TeamB.

Inductive Lead := LeadA (pts : Z) | LeadB (pts : Z) | Tied.

(** What a handler says, with the values it interpolates. *)
Inductive Reply :=
| AlreadyStarted
| ChooseMode
| OnlyInitiator (st : ConvState)
| AssignedTeam (t : Team) (name : string)
| AskDuration
| AskPenalties
| GameStartedTeam (a b : list string)
| GameStartedIndividual
| AlreadyClaimed
| Claimed (name : string) (streak_now points_now : Z)
| NoGameFound
| LeaderboardIndividual (rows : list (string * Z))
| LeaderboardTeam (a b : list (string * Z)) (lead : Lead)
| NoValidMode
| NotAuthorized
| NoActiveGameToEnd
| GameEnded
| ResetDone
| NoActiveGameFound
| DayEnded (current_day next_day : Z)
| AlreadyInGame
| NoActiveGameJoin
| WelcomeTeam (name : string) (t : Team)
| WelcomeIndividual (name : string).

Inductive GroupMsg :=
| DailySummary (rows : list (string * Z))
| EndedDueToDuration.

Inductive Out :=
| ReplyTo (chat : Z) (r : Reply)
| ToGroup (m : GroupMsg).

(** ** Collection operations (the part of pymongo the bot uses) *)

Section Collection.
Context {A : Type}.

Fixpoint find_one (q : A -> bool) (c : list A) : option A :=
  match c with
  | [] => None
  | d :: c' => if q d then Some d else find_one q c'
  end.

Fixpoint find_all (q : A -> bool) (c : list A) : list A :=
  match c with
  | [] => []
  | d :: c' => if q d then d :: find_all q c' else find_all q c'
  end.

Fixpoint update_one (q : A -> bool) (f : A -> A) (c : list A) : list A :=
  match c with
  | [] => []
  | d :: c' => if q d then f d :: c' else d :: update_one q f c'
  end.

Definition update_many (q : A -> bool) (f : A -> A) (c : list A) : list A :=
  map (fun d => if q d then f d else d) c.

Definition insert_one (d : A) (c : list A) : list A := c ++ [d].

Definition delete_many (q : A -> bool) (c : list A) : list A :=
  find_all (fun d => negb (q d)) c.
End Collection.

Definition everything {A : Type} (_ : A) : bool := true.

(** Queries. *)
Definition by_user_id (i : Z) (u : User) : bool := user_id u =? i.
Definition by_game_id (i : Z) (g : Game) : bool := game_id g =? i.
Definition name_in (names : list string) (u : User) : bool :=
  existsb (String.eqb (display_name u)) names.

(** [$set] documents. *)
Definition set_display_name (n : string) (u : User) : User :=
  mkUser (user_id u) n (points u) (streak u) (last_claim u).
Definition set_claim (p s : Z) (lc : option Z) (u : User) : User :=
  mkUser (user_id u) (display_name u) p s lc.
Definition set_streak_last_claim (s : Z) (lc : option Z) (u : User) : User :=
  mkUser (user_id u) (display_name u) (points u) s lc.
Definition set_active (b : bool) (g : Game) : Game :=
  mkGame (game_id g) (mode g) (duration g) (penalties g) (team_1 g) (team_2 g)
         b (day g) (start_date g).
Definition set_day (d : Z) (g : Game) : Game :=
  mkGame (game_id g) (mode g) (duration g) (penalties g) (team_1 g) (team_2 g)
         (active g) d (start_date g).
Definition set_teams (t1 t2 : list string) (g : Game) : Game :=
  mkGame (game_id g) (mode g) (duration g) (penalties g) t1 t2
         (active g) (day g) (start_date g).

(** [.sort("points", -1)]: descending, equal keys keep retrieval order. *)
Fixpoint insert_desc (u : User) (l : list User) : list User :=
  match l with
  | [] => [u]
  | v :: l' => if points u <? points v then v :: insert_desc u l' else u :: l
  end.

Definition sort_points_desc (l : list User) : list User :=
  fold_right insert_desc [] l.

(** [find_one(sort=[("start_date", -1)])]. *)
Fixpoint most_recent (c : list Game) : option Game :=
  match c with
  | [] => None
  | g :: c' =>
      match most_recent c' with
      | Some h => if start_date g <? start_date h then Some h else Some g
      | None => Some g
      end
  end.

(** ** The handler monad *)

(** What one handler invocation sees: both collections, the sender's
    [user_data], and the messages sent so far. *)
Record St := mkSt {
  users_collection : list User;
  games_collection : list Game;
  user_data : UserData;
  outbox : list Out
}.

Inductive Exn :=
| KeyError (key : string) | AttributeError | DuplicateKeyError | TypeError.

Inductive Res (A : Type) := Ok (a : A) | Raise (e : Exn).
Arguments Ok {A} a.
Arguments Raise {A} e.

Definition M (A : Type) : Type := St -> Res A * St.

Definition ret {A} (a : A) : M A := fun s => (Ok a, s).

Definition bind {A B} (m : M A) (k : A -> M B) : M B :=
  fun s => match m s with
           | (Ok a, s') => k a s'
           | (Raise e, s') => (Raise e, s')
           end.

Definition raise {A} (e : Exn) : M A := fun s => (Raise e, s).

Declare Scope handler_scope.
Delimit Scope handler_scope with handler.
Notation "'let*' x := m 'in' k" := (bind m (fun x => k))
  (at level 10, x pattern, m at level 100, k at level 200) : handler_scope.
Notation "'do*' m 'in' k" := (bind m (fun _ => k))
  (at level 10, m at level 100, k at level 200) : handler_scope.
Local Open Scope handler_scope.

Definition with_users (f : list User -> list User) : M unit :=
  fun s => (Ok tt, mkSt (f (users_collection s)) (games_collection s)
                        (user_data s) (outbox s)).
Definition with_games (f : list Game -> list Game) : M unit :=
  fun s => (Ok tt, mkSt (users_collection s) (f (games_collection s))
                        (user_data s) (outbox s)).
Definition with_user_data (f : UserData -> UserData) : M unit :=
  fun s => (Ok tt, mkSt (users_collection s) (games_collection s)
                        (f (user_data s)) (outbox s)).
Definition emit (o : Out) : M unit :=
  fun s => (Ok tt, mkSt (users_collection s) (games_collection s)
                        (user_data s) (outbox s ++ [o])).

Definition read_users : M (list User) := fun s => (Ok (users_collection s), s).
Definition read_games : M (list Game) := fun s => (Ok (games_collection s), s).
Definition read_user_data : M UserData := fun s => (Ok (user_data s), s).

Definition reply_text (update : Update) (r : Reply) : M unit :=
  emit (ReplyTo (chat_id update) r).
Definition send_group (m : GroupMsg) : M unit := emit (ToGroup m).

Definition users_find_one (q : User -> bool) : M (option User) :=
  let* us := read_users in ret (find_one q us).
Definition games_find_one (q : Game -> bool) : M (option Game) :=
  let* gs := read_games in ret (find_one q gs).

(** [_id] is the primary key: inserting a second game with a stored
    [_id] raises. *)
Definition games_insert_one (g : Game) : M unit :=
  let* gs := read_games in
  match find_one (by_game_id (game_id g)) gs with
  | Some _ => raise DuplicateKeyError
  | None => with_games (insert_one g)
  end.

(** [d[key]] on [user_data]. *)
Definition item {A} (key : string) (field : UserData -> option A) : M A :=
  let* d := read_user_data in
  match field d with
  | Some v => ret v
  | None => raise (KeyError key)
  end.

(** ** Handlers *)

(** Python truthiness of an optional profile field: [None] and the empty
    string are both falsy. *)
Definition truthy (o : option string) : bool :=
  match o with
  | Some s => negb (String.eqb s "")
  | None => false
  end.

Definition get_display_name (user_obj : TgUser) : string :=
  if truthy (username user_obj) then default "" (username user_obj)
  else if truthy (first_name user_obj) && truthy (last_name user_obj) then
    (default "" (first_name user_obj) ++ " " ++ default "" (last_name user_obj))%string
  else if truthy (first_name user_obj) then default "" (first_name user_obj)
  else "Unknown User".

Definition new_user (user_id : Z) (display_name : string) : User :=
  mkUser user_id display_name 0 0 None.

Definition rows (us : list User) : list (string * Z) :=
  map (fun u => (display_name u, points u)) us.

Definition sum_points (us : list User) : Z :=
  fold_right (fun u acc => points u + acc) 0 us.

(** The sender is the initiator recorded in [user_data]. *)
Definition is_initiator (update : Update) (d : UserData) : bool :=
  match initiator_id d with
  | Some i => tg_id (from_user update) =? i
  | None => false
  end.

Definition start (update : Update) : M Next :=
  let* active_game := games_find_one active in
  match active_game with
  | Some _ =>
      do* reply_text update AlreadyStarted in
      ret END
  | None =>
      do* with_user_data (fun d =>
            mkUserData (Some (tg_id (from_user update))) (ud_mode d)
                       (ud_duration d) (ud_penalties d) (ud_team_1 d) (ud_team_2 d)) in
      do* reply_text update ChooseMode in
      ret (Goto SELECT_MODE)
  end.

Definition select_mode (coin : bool) (update : Update) : M Next :=
  let* d := read_user_data in
  if negb (is_initiator update d) then
    do* reply_text update (OnlyInitiator SELECT_MODE) in
    ret (Goto SELECT_MODE)
  else
    let mode := text update in
    do* with_user_data (fun d =>
          mkUserData (initiator_id d) (Some mode) (ud_duration d)
                     (ud_penalties d) (ud_team_1 d) (ud_team_2 d)) in
    do* (if String.eqb mode "Team" then
           let initiator_name := get_display_name (from_user update) in
           if coin then
             do* with_user_data (fun d =>
                   mkUserData (initiator_id d) (ud_mode d) (ud_duration d)
                              (ud_penalties d) (Some ([] ++ [initiator_name])) (Some [])) in
             reply_text update (AssignedTeam TeamA initiator_name)
           else
             do* with_user_data (fun d =>
                   mkUserData (initiator_id d) (ud_mode d) (ud_duration d)
                              (ud_penalties d) (Some []) (Some ([] ++ [initiator_name]))) in
             reply_text update (AssignedTeam TeamB initiator_name)
         else ret tt) in
    do* reply_text update AskDuration in
    ret (Goto SET_DURATION).

Definition set_duration (update : Update) : M Next :=
  let* d := read_user_data in
  if negb (is_initiator update d) then
    do* reply_text update (OnlyInitiator SET_DURATION) in
    ret (Goto SET_DURATION)
  else
    let duration := text update in
    do* with_user_data (fun d =>
          mkUserData (initiator_id d) (ud_mode d) (Some duration)
                     (ud_penalties d) (ud_team_1 d) (ud_team_2 d)) in
    do* reply_text update AskPenalties in
    ret (Goto CONFIRM_PENALTIES).

(** [now] is the clock reading behind both the game's [_id] and its
    [start_date]. *)
Definition confirm_penalties (now : Z) (update : Update) : M Next :=
  let* d := read_user_data in
  if negb (is_initiator update d) then
    do* reply_text update (OnlyInitiator CONFIRM_PENALTIES) in
    ret (Goto CONFIRM_PENALTIES)
  else
    let penalties := String.eqb (text update) "Yes" in
    do* with_user_data (fun d =>
          mkUserData (initiator_id d) (ud_mode d) (ud_duration d)
                     (Some penalties) (ud_team_1 d) (ud_team_2 d)) in
    let game_id := now in
    let* mode := item "mode" ud_mode in
    let* duration := item "duration" ud_duration in
    let* penalties := item "penalties" ud_penalties in
    let* d := read_user_data in
    let game_data :=
      mkGame game_id mode duration penalties
             (default [] (ud_team_1 d)) (default [] (ud_team_2 d))
             true 1 now in
    do* games_insert_one game_data in
    do* with_users (update_many everything (set_claim 0 0 None)) in
    let* mode := item "mode" ud_mode in
    let msg :=
      if String.eqb mode "Team"
      then GameStartedTeam (team_1 game_data) (team_2 game_data)
      else GameStartedIndividual in
    do* reply_text update msg in
    ret END.

Definition claim (today : Z) (update : Update) : M unit :=
  let user_obj := from_user update in
  let user_id := tg_id user_obj in
  let name := get_display_name user_obj in
  let* user := users_find_one (by_user_id user_id) in
  let* user :=
    match user with
    | None =>
        do* with_users (insert_one (new_user user_id name)) in
        users_find_one (by_user_id user_id)
    | Some u =>
        do* (if negb (String.eqb (display_name u) name) then
               with_users (update_one (by_user_id user_id)
                                      (set_display_name name))
             else ret tt) in
        ret (Some u)
    end in
  match user with
  | None => raise AttributeError
  | Some user =>
      if bool_decide (last_claim user = Some today) then
        reply_text update AlreadyClaimed
      else
        let yesterday := today - 1 in
        let streak :=
          if bool_decide (last_claim user = Some yesterday)
          then streak user + 1
          else 1 in
        let new_points := points user + 1 in
        let new_points :=
          if streak mod 7 =? 0 then new_points + 3 else new_points in
        do* with_users (update_one (by_user_id user_id)
                                   (set_claim new_points streak (Some today))) in
        reply_text update (Claimed name streak new_points)
  end.

Definition leaderboard (update : Update) : M unit :=
  let* active_game := games_find_one active in
  let* active_game :=
    match active_game with
    | Some g => ret (Some g)
    | None => let* gs := read_games in ret (most_recent gs)
    end in
  match active_game with
  | None => reply_text update NoGameFound
  | Some active_game =>
      let game_mode := mode active_game in
      let* us := read_users in
      let message :=
        if String.eqb game_mode "Individual" then
          LeaderboardIndividual (rows (sort_points_desc us))
        else if String.eqb game_mode "Team" then
          let team_1_users := find_all (name_in (team_1 active_game)) us in
          let team_2_users := find_all (name_in (team_2 active_game)) us in
          let team_1_points := sum_points team_1_users in
          let team_2_points := sum_points team_2_users in
          LeaderboardTeam (rows team_1_users) (rows team_2_users)
            (if team_2_points <? team_1_points then LeadA team_1_points
             else if team_1_points <? team_2_points then LeadB team_2_points
             else Tied)
        else NoValidMode in
      reply_text update message
  end.

Definition daily_summary : M unit :=
  let* active_game := games_find_one active in
  match active_game with
  | None => ret tt
  | Some _ =>
      let* us := read_users in
      send_group (DailySummary (rows (sort_points_desc us)))
  end.

(** Length of a day in microseconds. *)
Definition day_length : Z := 86400000000.

Definition duration_exceeded (game_duration : string) (game_days_passed : Z) : bool :=
  (String.eqb game_duration "1 week" && (7 <=? game_days_passed))
  || (String.eqb game_duration "2 weeks" && (14 <=? game_days_passed))
  || (String.eqb game_duration "1 month" && (30 <=? game_days_passed)).

(** A [datetime]: the instant, and whether it has a time zone. *)
Record datetime := mkDatetime { instant : Z; tz_aware : bool }.

(** [datetime.datetime.now(pytz.UTC)]. *)
Definition now_utc (clock : Z) : datetime := mkDatetime clock true.

(** A date field read back from the store: [MongoClient(MONGO_URI)] is
    built without [tz_aware], so the driver hands back a datetime with
    no time zone. *)
Definition stored_datetime (t : Z) : datetime := mkDatetime t false.

(** [a - b] on datetimes, as a number of microseconds: defined only
    between two datetimes of the same kind. *)
Definition datetime_sub (a b : datetime) : Res Z :=
  if Bool.eqb (tz_aware a) (tz_aware b) then Ok (instant a - instant b)
  else Raise TypeError.

(** A computation that returns or raises without touching the state. *)
Definition lift {A} (r : Res A) : M A := fun s => (r, s).

(** The body of the [for game in active_games] loop: the days passed are
    computed from the stored start date first; the first game past its
    duration ends the whole job. *)
Fixpoint check_each (now : Z) (active_games : list Game) : M unit :=
  match active_games with
  | [] => ret tt
  | game :: rest =>
      let game_duration := duration game in
      let game_start_date := stored_datetime (start_date game) in
      let current_date := now_utc now in
      let* elapsed := lift (datetime_sub current_date game_start_date) in
      let game_days_passed := elapsed / day_length in
      if duration_exceeded game_duration game_days_passed then
        do* with_games (update_one (by_game_id (game_id game)) (set_active false)) in
        send_group EndedDueToDuration
      else
        do* daily_summary in
        check_each now rest
  end.

Definition check_game_end (now : Z) : M unit :=
  let* gs := read_games in
  check_each now (find_all active gs).

Definition scheduled_check_game_end (now : Z) : M unit := check_game_end now.

Definition join (coin : bool) (update : Update) : M unit :=
  let user_obj := from_user update in
  let user_id := tg_id user_obj in
  let display_name := get_display_name user_obj in
  let* user := users_find_one (by_user_id user_id) in
  match user with
  | Some _ => reply_text update AlreadyInGame
  | None =>
      let* active_game := games_find_one active in
      match active_game with
      | None => reply_text update NoActiveGameJoin
      | Some active_game =>
          do* (if String.eqb (mode active_game) "Team" then
                 let team_1 := team_1 active_game in
                 let team_2 := team_2 active_game in
                 let* teams :=
                   if (length team_1 <? length team_2)%nat then
                     do* reply_text update (WelcomeTeam display_name TeamA) in
                     ret (team_1 ++ [display_name], team_2)
                   else if (length team_2 <? length team_1)%nat then
                     do* reply_text update (WelcomeTeam display_name TeamB) in
                     ret (team_1, team_2 ++ [display_name])
                   else if coin then
                     do* reply_text update (WelcomeTeam display_name TeamA) in
                     ret (team_1 ++ [display_name], team_2)
                   else
                     do* reply_text update (WelcomeTeam display_name TeamB) in
                     ret (team_1, team_2 ++ [display_name]) in
                 with_games (update_one (by_game_id (game_id active_game))
                                        (set_teams (fst teams) (snd teams)))
               else reply_text update (WelcomeIndividual display_name)) in
          with_users (insert_one (new_user user_id display_name))
      end
  end.

Section Admin.
(** The configured administrator identity. *)
Variable ADMIN_ID : Z.

Definition is_admin (update : Update) : bool :=
  tg_id (from_user update) =? ADMIN_ID.

Definition end_game (update : Update) : M unit :=
  if negb (is_admin update) then reply_text update NotAuthorized
  else
    let* active_game := games_find_one active in
    match active_game with
    | None => reply_text update NoActiveGameToEnd
    | Some active_game =>
        do* leaderboard update in
        do* with_games (update_one (by_game_id (game_id active_game))
                                   (set_active false)) in
        do* reply_text update GameEnded in
        do* with_users (delete_many everything) in
        with_games (delete_many everything)
    end.

Definition reset (update : Update) : M unit :=
  if negb (is_admin update) then reply_text update NotAuthorized
  else
    do* with_users (update_many everything (set_claim 0 0 None)) in
    reply_text update ResetDone.

Definition end_day (update : Update) : M unit :=
  if negb (is_admin update) then reply_text update NotAuthorized
  else
    let* active_game := games_find_one active in
    match active_game with
    | None => reply_text update NoActiveGameFound
    | Some active_game =>
        let current_day := day active_game in
        let next_day := current_day + 1 in
        do* with_games (update_one (by_game_id (game_id active_game))
                                   (set_day next_day)) in
        do* with_users (update_many everything (set_streak_last_claim 0 None)) in
        let game_duration := duration active_game in
        if String.eqb game_duration "1 week" && (7 <? next_day) then
          end_game update
        else if String.eqb game_duration "2 weeks" && (14 <? next_day) then
          end_game update
        else if String.eqb game_duration "1 month" && (30 <? next_day) then
          end_game update
        else
          do* reply_text update (DayEnded current_day next_day) in
          daily_summary
    end.
End Admin.

(** ** The dispatcher and the cron job *)

(** The whole bot: both collections, every user's [user_data], the
    conversation state of every (chat, user) key, and what was sent. *)
Record World := mkWorld {
  db_users : list User;
  db_games : list Game;
  all_user_data : gmap Z UserData;
  conversations : gmap (Z * Z) ConvState;
  sent : list Out
}.

Definition initial_world : World := mkWorld [] [] ∅ ∅ [].

(** Commands with a registered [CommandHandler] that are embedded here. *)
Inductive Command :=
| CmdStart | CmdClaim | CmdLeaderboard | CmdEndGame | CmdReset | CmdEndDay | CmdJoin.

(** What a handler may read from outside: the local date, the UTC clock
    and one draw of [random.choice]. *)
Record Env := mkEnv { today : Z; now : Z; coin : bool }.

Inductive Event :=
| Message (env : Env) (command : option Command) (update : Update)
| Cron (clock : Z).

(** Run a handler on behalf of the sender of [update]. *)
Definition run_handler {A} (h : M A) (update : Update) (w : World) : Res A * World :=
  let uid := tg_id (from_user update) in
  let '(r, s) := h (mkSt (db_users w) (db_games w)
                         (default empty_user_data (all_user_data w !! uid))
                         (sent w)) in
  (r, mkWorld (users_collection s) (games_collection s)
              (<[uid := user_data s]> (all_user_data w))
              (conversations w) (outbox s)).

(** The conversation moves to the state the handler returned; a handler
    that raised leaves it where it was. *)
Definition conversation_result (key : Z * Z) (r : Res Next) (w : World) : World :=
  mkWorld (db_users w) (db_games w) (all_user_data w)
          (match r with
           | Ok (Goto st) => <[key := st]> (conversations w)
           | Ok END => delete key (conversations w)
           | Raise _ => conversations w
           end)
          (sent w).

Section Dispatcher.
Variable ADMIN_ID : Z.

(** [conv_handler] is registered first: a sender inside a conversation
    has every text message routed to the handler of the current state;
    otherwise the command handlers are tried. *)
Definition dispatch (env : Env) (command : option Command) (update : Update)
           (w : World) : World :=
  let key := (chat_id update, tg_id (from_user update)) in
  match conversations w !! key with
  | Some st =>
      let h := match st with
               | SELECT_MODE => select_mode (coin env) update
               | SET_DURATION => set_duration update
               | CONFIRM_PENALTIES => confirm_penalties (now env) update
               end in
      let '(r, w') := run_handler h update w in
      conversation_result key r w'
  | None =>
      match command with
      | Some CmdStart =>
          let '(r, w') := run_handler (start update) update w in
          conversation_result key r w'
      | Some CmdClaim => snd (run_handler (claim (today env) update) update w)
      | Some CmdLeaderboard => snd (run_handler (leaderboard update) update w)
      | Some CmdEndGame => snd (run_handler (end_game ADMIN_ID update) update w)
      | Some CmdReset => snd (run_handler (reset ADMIN_ID update) update w)
      | Some CmdEndDay => snd (run_handler (end_day ADMIN_ID update) update w)
      | Some CmdJoin => snd (run_handler (join (coin env) update) update w)
      | None => w
      end
  end.

(** [CallbackContext.from_bot(updater.bot)], the argument the scheduled
    job builds first: [CallbackContext] has no attribute of that name. *)
Definition from_bot : Res unit := Raise AttributeError.

(** The scheduled job: the context is built, then the check runs with
    it.  An exception ends the job; the scheduler logs it and goes on. *)
Definition cron (clock : Z) (w : World) : World :=
  match from_bot with
  | Raise _ => w
  | Ok _ =>
      let '(_, s) := scheduled_check_game_end clock
                       (mkSt (db_users w) (db_games w) empty_user_data (sent w)) in
      mkWorld (users_collection s) (games_collection s) (all_user_data w)
              (conversations w) (outbox s)
  end.

Definition step (w : World) (e : Event) : World :=
  match e with
  | Message env command update => dispatch env command update w
  | Cron clock => cron clock w
  end.

Definition run (events : list Event) (w : World) : World :=
  fold_left step events w.
End Dispatcher.

(** ** Notions the properties are stated with *)

(** The state a claim starts from: the sender's document, or the zero
    document that [claim] creates when there is none. *)
Definition prior_state (update : Update) (s : St) : User :=
  default (new_user (tg_id (from_user update)) (get_display_name (from_user update)))
          (find_one (by_user_id (tg_id (from_user update))) (users_collection s)).

(** The sender's document as stored after handler [h] ran. *)
Definition sender_after (update : Update) (r : Res unit * St) : option User :=
  find_one (by_user_id (tg_id (from_user update))) (users_collection (snd r)).

(** The sender's points after each claim of a run of claims, one per
    listed day. *)
Fixpoint points_after_claims (update : Update) (days : list Z) (s : St)
  : list (option Z) :=
  match days with
  | [] => []
  | d :: ds =>
      let r := claim d update s in
      (points <$> sender_after update r) :: points_after_claims update ds (snd r)
  end.

(** The three tests that close [end_day]. *)
Definition day_limit_passed (game_duration : string) (next_day : Z) : bool :=
  (String.eqb game_duration "1 week" && (7 <? next_day))
  || (String.eqb game_duration "2 weeks" && (14 <? next_day))
  || (String.eqb game_duration "1 month" && (30 <? next_day)).

(** The day count each duration stands for. *)
Definition day_threshold (game_duration : string) : option Z :=
  if String.eqb game_duration "1 week" then Some 7
  else if String.eqb game_duration "2 weeks" then Some 14
  else if String.eqb game_duration "1 month" then Some 30
  else None.

(** The store once [end_day] has advanced the day of game [g] and reset
    the daily state of every user. *)
Definition day_advanced (g : Game) (s : St) : St :=
  mkSt (map (fun u => mkUser (user_id u) (display_name u) (points u) 0 None)
            (users_collection s))
       (update_one (by_game_id (game_id g)) (set_day (day g + 1)) (games_collection s))
       (user_data s) (outbox s).

(** ** Sample data for concrete runs *)

Module Sample.
Definition admin_id : Z := 1.
Definition coach : TgUser := mkTgUser 1 (Some "coach") (Some "Coach") None.
Definition alice : TgUser := mkTgUser 2 (Some "alice") (Some "Alice") None.
Definition alice_renamed : TgUser := mkTgUser 2 (Some "alice_lifts") (Some "Alice") None.
Definition bob : TgUser := mkTgUser 3 None (Some "Bob") (Some "Builder").

Definition says (who : TgUser) (t : string) : Update := mkUpdate 100 who t.

(** The same in a chat of its own (a private chat with the bot). *)
Definition says_in (chat : Z) (who : TgUser) (t : string) : Update :=
  mkUpdate chat who t.

(** A message that arrives when the date is [d] and the clock reads [t]. *)
Definition at_time (d t : Z) (command : option Command) (update : Update) : Event :=
  Message (mkEnv d t true) command update.

Definition empty_store : St := mkSt [] [] empty_user_data [].

Definition week_game (d : Z) : Game :=
  mkGame 0 "Individual" "1 week" false [] [] true d 0.

Definition team_game : Game :=
  mkGame 0 "Team" "1 week" false ["alice"] [] true 1 0.

Definition alice_doc : User := mkUser 2 "alice" 5 2 (Some 10).

(** One user, one active one-week game on day [d]. *)
Definition store_on_day (d : Z) : St :=
  mkSt [alice_doc] [week_game d] empty_user_data [].

Definition team_store : St := mkSt [alice_doc] [team_game] empty_user_data [].

(** Alice is half way through a setup with free text for both answers. *)
Definition setup_store : St :=
  mkSt [alice_doc] []
       (mkUserData (Some 2) (Some "Yoga") (Some "forever") None None None) [].

(** Alice sets up a one-week Individual game at clock 0. *)
Definition alice_sets_up : list Event :=
  [ at_time 10 0 (Some CmdStart) (says alice "/start");
    at_time 10 0 None (says alice "Individual");
    at_time 10 0 None (says alice "1 week");
    at_time 10 0 None (says alice "No") ].

(** Alice, in the group chat, and Bob, in a chat of his own, both begin a
    setup before either has finished. *)
Definition overlapping_setups : list Event :=
  [ at_time 10 0 (Some CmdStart) (says alice "/start");
    at_time 10 0 (Some CmdStart) (says_in 200 bob "/start");
    at_time 10 0 None (says alice "Individual");
    at_time 10 0 None (says alice "1 week");
    at_time 10 1000 None (says alice "No");
    at_time 10 1000 None (says_in 200 bob "Individual");
    at_time 10 1000 None (says_in 200 bob "1 week");
    at_time 10 2000 None (says_in 200 bob "No") ].

(** Alice answers every setup question with text outside the offered
    choices. *)
Definition free_text_setup : list Event :=
  [ at_time 10 0 (Some CmdStart) (says alice "/start");
    at_time 10 0 None (says alice "Yoga");
    at_time 10 0 None (says alice "forever");
    at_time 10 0 None (says alice "maybe") ].
End Sample.

Import Sample.

(** ** Point adjustment by the administrator *)

(** What [admin_override] and [set_points] reply; each path through them
    replies exactly once, and the reply is their result here. *)
Inductive PointsReply :=
| PointsNotAuthorized
| PointsUserNotFound
| PointsAdded (value : Z) (name : string)
| PointsRemoved (value : Z) (name : string)
| PointsInvalidAction
| PointsInvalidCommand
| PointsSet (value : Z) (name : string).

(** [display_name.lstrip('@')]. *)
Fixpoint lstrip_at (s : string) : string :=
  match s with
  | String c s' => if Ascii.eqb c "@"%char then lstrip_at s' else s
  | EmptyString => s
  end.

Definition by_display_name (n : string) (u : User) : bool :=
  String.eqb (display_name u) n.

(** [{"$inc": {"points": v}}] and [{"$set": {"points": p}}]. *)
Definition inc_points (v : Z) (u : User) : User :=
  mkUser (user_id u) (display_name u) (points u + v) (streak u) (last_claim u).
Definition put_points (p : Z) (u : User) : User :=
  mkUser (user_id u) (display_name u) p (streak u) (last_claim u).

Section PointsCommands.
Variable ADMIN_ID : Z.
(** Python's [str.split()] and [int()]; [int] is [None] where Python
    raises [ValueError]. *)
Variable split : string -> list string.
Variable int : string -> option Z.

(** The [try] block catches every exception: a wrong number of words and
    a word that is not a number both end in the invalid-command reply. *)
Definition admin_override (update : Update) : M PointsReply :=
  if negb (is_admin ADMIN_ID update) then ret PointsNotAuthorized
  else
    match split (text update) with
    | [_; action; display_name; value_str] =>
        match int value_str with
        | None => ret PointsInvalidCommand
        | Some value =>
            let display_name := lstrip_at display_name in
            let* user := users_find_one (by_display_name display_name) in
            match user with
            | None => ret PointsUserNotFound
            | Some _ =>
                if String.eqb action "add" then
                  do* with_users (update_one (by_display_name display_name)
                                             (inc_points value)) in
                  ret (PointsAdded value display_name)
                else if String.eqb action "remove" then
                  do* with_users (update_one (by_display_name display_name)
                                             (inc_points (- value))) in
                  ret (PointsRemoved value display_name)
                else ret PointsInvalidAction
            end
        end
    | _ => ret PointsInvalidCommand
    end.

Definition set_points (update : Update) : M PointsReply :=
  if negb (is_admin ADMIN_ID update) then ret PointsNotAuthorized
  else
    match split (text update) with
    | [_; display_name; points_str] =>
        match int points_str with
        | None => ret PointsInvalidCommand
        | Some points =>
            let display_name := lstrip_at display_name in
            let* user := users_find_one (by_display_name display_name) in
            match user with
            | None => ret PointsUserNotFound
            | Some _ =>
                do* with_users (update_one (by_display_name display_name)
                                           (put_points points)) in
                ret (PointsSet points display_name)
            end
        end
    | _ => ret PointsInvalidCommand
    end.
End PointsCommands.

(** ** Further notions *)

(** [n] end-of-day commands by the same administrator, one after the
    other. *)
Fixpoint end_days (ADMIN_ID : Z) (n : nat) (update : Update) (s : St) : St :=
  match n with
  | O => s
  | S n' => end_days ADMIN_ID n' update (snd (end_day ADMIN_ID update s))
  end.

(** The store with one more line of output. *)
Definition said (s : St) (o : Out) : St :=
  mkSt (users_collection s) (games_collection s) (user_data s) (outbox s ++ [o]).

(** The rosters differ in size by at most one. *)
Definition balanced (g : Game) : Prop :=
  (length (team_1 g) <= length (team_2 g) + 1
   /\ length (team_2 g) <= length (team_1 g) + 1)%nat.

Definition others (uid : Z) (u : User) : bool := negb (by_user_id uid u).

(** Descending order on points. *)
Definition desc (a b : Z) : Prop := b <= a.

(** How one handler run may change a collection, as far as its keys go:
    the keys stay as they are, one document with a key not yet stored is
    appended, or the collection is emptied. *)
Definition users_step (us us' : list User) : Prop :=
  map user_id us' = map user_id us
  \/ (exists u, us' = us ++ [u] /\ find_one (by_user_id (user_id u)) us = None)
  \/ us' = [].

Definition games_step (gs gs' : list Game) : Prop :=
  map game_id gs' = map game_id gs
  \/ (exists g, gs' = gs ++ [g] /\ find_one (by_game_id (game_id g)) gs = None)
  \/ gs' = [].

Definition store_step (s s' : St) : Prop :=
  users_step (users_collection s) (users_collection s')
  /\ games_step (games_collection s) (games_collection s').

(** No two user documents share a user id, no two games an [_id]. *)
Definition ids_unique (w : World) : Prop :=
  NoDup (map user_id (db_users w)) /\ NoDup (map game_id (db_games w)).


Module Words.
(** A plain splitter on spaces and a parser of unsigned decimal
    numerals, to run the point commands on concrete text. *)
Fixpoint words_from (acc : string) (s : string) : list string :=
  match s with
  | EmptyString => if String.eqb acc "" then [] else [acc]
  | String c s' =>
      if Ascii.eqb c " "%char then
        if String.eqb acc "" then words_from "" s' else acc :: words_from "" s'
      else words_from (acc ++ String c EmptyString)%string s'
  end.

Definition words (s : string) : list string := words_from "" s.

Definition digit (c : Ascii.ascii) : option Z :=
  let n := Z.of_nat (Ascii.nat_of_ascii c) in
  if (48 <=? n) && (n <=? 57) then Some (n - 48) else None.

Fixpoint decimal_from (acc : Z) (s : string) : option Z :=
  match s with
  | EmptyString => Some acc
  | String c s' =>
      match digit c with
      | Some d => decimal_from (10 * acc + d) s'
      | None => None
      end
  end.

Definition decimal (s : string) : option Z :=
  match s with
  | EmptyString => None
  | _ => decimal_from 0 s
  end.

Definition bella_doc : User := mkUser 4 "bella" 7 3 (Some 9).
Definition points_store : St :=
  mkSt [alice_doc; bella_doc] [week_game 2] empty_user_data [].
Definition forever_store : St :=
  mkSt [alice_doc] [mkGame 0 "Individual" "forever" false [] [] true 40 0]
       empty_user_data [].
End Words.

Import Words.

(** * Properties *)

(** ** Facts about the collection operations *)

Section CollectionFacts.
Context {A : Type}.
Implicit Types (q p : A -> bool) (f : A -> A) (c : list A).

Lemma find_one_Some q c d : find_one q c = Some d -> In d c /\ q d = true.
Proof.
  induction c as [|e c IH]; simpl; [discriminate|].
  destruct (q e) eqn:E.
  - intros [= ->]. auto.
  - intros H. destruct (IH H). auto.
Qed.

Lemma find_one_app_None q c d :
  find_one q c = None -> q d = true -> find_one q (c ++ [d]) = Some d.
Proof.
  induction c as [|e c IH]; simpl; intros H Hd.
  - now rewrite Hd.
  - destruct (q e); [discriminate | auto].
Qed.

Lemma update_one_app_None q f c d :
  find_one q c = None -> q d = true -> update_one q f (c ++ [d]) = c ++ [f d].
Proof.
  induction c as [|e c IH]; simpl; intros H Hd.
  - now rewrite Hd.
  - destruct (q e); [discriminate|]. now rewrite IH.
Qed.

(** Updating the first match of the query it was found by. *)
Lemma find_one_update_one q f c d :
  find_one q c = Some d -> q (f d) = true ->
  find_one q (update_one q f c) = Some (f d).
Proof.
  induction c as [|e c IH]; simpl; [discriminate|].
  destruct (q e) eqn:E.
  - intros [= ->] Hd. simpl. now rewrite Hd.
  - intros H Hd. simpl. rewrite E. auto.
Qed.

Lemma update_one_twice q f g c :
  (forall d, q d = true -> q (f d) = true) ->
  update_one q g (update_one q f c) = update_one q (fun d => g (f d)) c.
Proof.
  intros Hq. induction c as [|e c IH]; simpl; [reflexivity|].
  destruct (q e) eqn:E; simpl.
  - now rewrite (Hq e E).
  - now rewrite E, IH.
Qed.

Lemma update_one_length q f c : length (update_one q f c) = length c.
Proof.
  induction c as [|e c IH]; simpl; [reflexivity|].
  destruct (q e); simpl; congruence.
Qed.

(** An update that does not touch what [p] looks at keeps the first
    [p]-match in place. *)
Lemma find_one_update_one_other p q f c d :
  (forall e, p (f e) = p e) ->
  find_one p c = Some d ->
  find_one p (update_one q f c) = Some d \/
  find_one p (update_one q f c) = Some (f d).
Proof.
  intros Hp. induction c as [|e c IH]; simpl; [discriminate|].
  destruct (p e) eqn:Ep.
  - intros [= ->]. destruct (q d); simpl.
    + right. now rewrite Hp, Ep.
    + left. now rewrite Ep.
  - intros H. destruct (q e); simpl.
    + rewrite Hp, Ep. now left.
    + rewrite Ep. auto.
Qed.

Lemma delete_many_everything c : delete_many everything c = [].
Proof. induction c; simpl; auto. Qed.

Lemma update_many_everything f c : update_many everything f c = map f c.
Proof. reflexivity. Qed.

Lemma map_update_one {B} (k : A -> B) q f c :
  (forall d, k (f d) = k d) -> map k (update_one q f c) = map k c.
Proof.
  intros Hk. induction c as [|e c IH]; simpl; [reflexivity|].
  destruct (q e); simpl; congruence.
Qed.
End CollectionFacts.

(** With unique [_id]s, the update by [_id] of the first active game
    lands on that game. *)
Lemma find_active_update_by_id (f : Game -> Game) (c : list Game) (g : Game) :
  NoDup (map game_id c) ->
  (forall h, active (f h) = active h) ->
  find_one active c = Some g ->
  find_one active (update_one (by_game_id (game_id g)) f c) = Some (f g).
Proof.
  intros Hnd Hf. induction c as [|e c IH]; simpl; [discriminate|].
  inversion Hnd as [|? ? Hnotin Hnd']; subst.
  unfold by_game_id at 1.
  destruct (active e) eqn:Ea.
  - intros [= ->]. rewrite Z.eqb_refl. simpl. now rewrite Hf, Ea.
  - intros H. destruct (Z.eqb_spec (game_id e) (game_id g)) as [Heq|Hne].
    + exfalso. apply Hnotin. rewrite Heq.
      apply list_elem_of_In, in_map. now apply (find_one_Some active c g).
    + simpl. rewrite Ea. auto.
Qed.

(** ** The claim handler, case by case *)

Ltac unfold_handlers :=
  unfold users_find_one, games_find_one, games_insert_one, item,
    reply_text, send_group, emit, with_users, with_games, with_user_data,
    read_users, read_games, read_user_data, bind, ret, raise in *.

Lemma by_user_id_set_display_name i n u :
  by_user_id i (set_display_name n u) = by_user_id i u.
Proof. reflexivity. Qed.

Lemma by_user_id_set_claim i p k lc u :
  by_user_id i (set_claim p k lc u) = by_user_id i u.
Proof. reflexivity. Qed.

(** The sender has a document: the name is refreshed first, then the
    claim is either turned down or scored. *)
Lemma claim_existing (today : Z) (update : Update) (s : St) (u : User) :
  find_one (by_user_id (tg_id (from_user update))) (users_collection s) = Some u ->
  claim today update s =
    let uid := tg_id (from_user update) in
    let name := get_display_name (from_user update) in
    let refreshed :=
      if negb (String.eqb (display_name u) name)
      then update_one (by_user_id uid) (set_display_name name) (users_collection s)
      else users_collection s in
    if bool_decide (last_claim u = Some today) then
      (Ok tt, mkSt refreshed (games_collection s) (user_data s)
                   (outbox s ++ [ReplyTo (chat_id update) AlreadyClaimed]))
    else
      let k := if bool_decide (last_claim u = Some (today - 1))
               then streak u + 1 else 1 in
      let p := if k mod 7 =? 0 then points u + 1 + 3 else points u + 1 in
      (Ok tt, mkSt (update_one (by_user_id uid) (set_claim p k (Some today)) refreshed)
                   (games_collection s) (user_data s)
                   (outbox s ++ [ReplyTo (chat_id update) (Claimed name k p)])).
Proof.
  intros Hfind. unfold claim. unfold_handlers. rewrite Hfind. cbn zeta.
  destruct (negb (String.eqb (display_name u) (get_display_name (from_user update))));
    cbn [users_collection games_collection user_data outbox];
    destruct (bool_decide (last_claim u = Some today)); reflexivity.
Qed.

(** The sender has no document yet: one is created and scored at once. *)
Lemma claim_new (today : Z) (update : Update) (s : St) :
  find_one (by_user_id (tg_id (from_user update))) (users_collection s) = None ->
  claim today update s =
    let name := get_display_name (from_user update) in
    (Ok tt, mkSt (users_collection s
                    ++ [mkUser (tg_id (from_user update)) name 1 1 (Some today)])
                 (games_collection s) (user_data s)
                 (outbox s ++ [ReplyTo (chat_id update) (Claimed name 1 1)])).
Proof.
  intros Hfind. unfold claim. unfold_handlers. rewrite Hfind.
  cbn [users_collection games_collection user_data outbox].
  unfold insert_one.
  rewrite (find_one_app_None _ _ _ Hfind)
    by (unfold by_user_id, new_user; simpl; apply Z.eqb_refl).
  cbn [last_claim new_user points streak].
  rewrite !bool_decide_eq_false_2 by discriminate.
  cbn [users_collection games_collection user_data outbox].
  change (1 mod 7 =? 0) with false. cbn iota.
  rewrite (update_one_app_None _ _ _ _ Hfind)
    by (unfold by_user_id, new_user; simpl; apply Z.eqb_refl).
  reflexivity.
Qed.

Lemma set_display_name_same (u : User) (n : string) :
  String.eqb (display_name u) n = true -> set_display_name n u = u.
Proof. intros H%String.eqb_eq. subst. now destruct u. Qed.

(** A claim that is not turned down leaves exactly this document. *)
Lemma claim_scored (today : Z) (update : Update) (s : St) :
  let u := prior_state update s in
  last_claim u <> Some today ->
  let k := if bool_decide (last_claim u = Some (today - 1)) then streak u + 1 else 1 in
  let p := if k mod 7 =? 0 then points u + 1 + 3 else points u + 1 in
  sender_after update (claim today update s)
  = Some (mkUser (tg_id (from_user update)) (get_display_name (from_user update))
                 p k (Some today)).
Proof.
  unfold prior_state, sender_after.
  destruct (find_one _ (users_collection s)) as [u|] eqn:Hfind; cbn [default].
  - intros Hlc. rewrite (claim_existing _ _ _ _ Hfind). cbn zeta.
    rewrite bool_decide_eq_false_2 by exact Hlc.
    cbn [snd users_collection].
    destruct (find_one_Some _ _ _ Hfind) as [_ Hid].
    apply Z.eqb_eq in Hid.
    destruct (String.eqb (display_name u) _) eqn:En; cbn [negb].
    + rewrite (find_one_update_one _ _ _ _ Hfind)
        by (rewrite by_user_id_set_claim; unfold by_user_id; now apply Z.eqb_eq).
      apply String.eqb_eq in En. unfold set_claim. now rewrite Hid, En.
    + rewrite update_one_twice by (intros; now rewrite by_user_id_set_display_name).
      rewrite (find_one_update_one _ _ _ _ Hfind)
        by (unfold by_user_id; now apply Z.eqb_eq).
      unfold set_claim, set_display_name; cbn. now rewrite Hid.
  - intros _. rewrite (claim_new _ _ _ Hfind). cbn [snd users_collection].
    rewrite !bool_decide_eq_false_2 by discriminate.
    apply find_one_app_None; [exact Hfind|].
    unfold by_user_id; cbn. apply Z.eqb_refl.
Qed.

(** The day after a scored claim, with the streak it left. *)
Lemma claim_next_day (d y : Z) (update : Update) (s : St) (n : string) (p k : Z) :
  y = d - 1 ->
  sender_after update (Ok tt, s) = Some (mkUser (tg_id (from_user update)) n p k (Some y)) ->
  sender_after update (claim d update s)
  = Some (mkUser (tg_id (from_user update)) (get_display_name (from_user update))
                 (if (k + 1) mod 7 =? 0 then p + 1 + 3 else p + 1) (k + 1) (Some d)).
Proof.
  intros -> Hs. unfold sender_after in Hs; cbn [snd] in Hs.
  pose proof (claim_scored d update s) as H.
  unfold prior_state in H. rewrite Hs in H. cbn [default last_claim streak points] in H.
  rewrite bool_decide_eq_true_2 in H by reflexivity.
  apply H. intros [= E]. lia.
Qed.

(** ** Scoring and streak *)

(** C1. A claim made on a day other than the day of the last claim sets
    the streak to the prior streak plus one when the last claim was the
    day before and to 1 otherwise, and the points to the prior points
    plus one, plus three more exactly when the new streak is a multiple
    of 7; seven claims on consecutive days from the zero state give the
    points 1, 2, 3, 4, 5, 6, 10. *)
Theorem claim_streak_and_points (today : Z) (update : Update) (s : St) :
  let u := prior_state update s in
  last_claim u <> Some today ->
  (exists u',
      sender_after update (claim today update s) = Some u' /\
      streak u' = (if bool_decide (last_claim u = Some (today - 1))
                   then streak u + 1 else 1) /\
      points u' = points u + 1 + (if streak u' mod 7 =? 0 then 3 else 0) /\
      last_claim u' = Some today)
  /\ (points u = 0 -> streak u = 0 -> last_claim u = None ->
      points_after_claims update
        [today; today + 1; today + 2; today + 3; today + 4; today + 5; today + 6] s
      = [Some 1; Some 2; Some 3; Some 4; Some 5; Some 6; Some 10]).
Proof.
  intros u Hlc. split.
  - eexists. split; [apply claim_scored; exact Hlc|].
    cbn [streak points last_claim]. fold u.
    repeat split. destruct (_ mod 7 =? 0); lia.
  - intros Hp Hk Hn.
    pose proof (claim_scored today update s Hlc) as H1. fold u in H1.
    rewrite Hn, Hp in H1. rewrite bool_decide_eq_false_2 in H1 by discriminate.
    cbn [points_after_claims].
    set (s1 := claim today update s) in *.
    assert (E1 : sender_after update (Ok tt, snd s1) = sender_after update s1)
      by reflexivity.
    rewrite H1 in E1.
    pose proof (claim_next_day (today + 1) today update _ _ _ _ ltac:(lia) E1) as H2.
    set (s2 := claim (today + 1) update (snd s1)) in *.
    pose proof (claim_next_day (today + 2) (today + 1) update (snd s2) _ _ _ ltac:(lia) H2) as H3.
    set (s3 := claim (today + 2) update (snd s2)) in *.
    pose proof (claim_next_day (today + 3) (today + 2) update (snd s3) _ _ _ ltac:(lia) H3) as H4.
    set (s4 := claim (today + 3) update (snd s3)) in *.
    pose proof (claim_next_day (today + 4) (today + 3) update (snd s4) _ _ _ ltac:(lia) H4) as H5.
    set (s5 := claim (today + 4) update (snd s4)) in *.
    pose proof (claim_next_day (today + 5) (today + 4) update (snd s5) _ _ _ ltac:(lia) H5) as H6.
    set (s6 := claim (today + 5) update (snd s5)) in *.
    pose proof (claim_next_day (today + 6) (today + 5) update (snd s6) _ _ _ ltac:(lia) H6) as H7.
    rewrite H1, H2, H3, H4, H5, H6, H7. reflexivity.
Qed.

Lemma update_one_fixed {A} (q : A -> bool) (f : A -> A) (c : list A) (d : A) :
  find_one q c = Some d -> f d = d -> update_one q f c = c.
Proof.
  induction c as [|e c IH]; simpl; [discriminate|].
  destruct (q e) eqn:E.
  - intros [= ->] ->. reflexivity.
  - intros H Hd. now rewrite IH.
Qed.

(** C4, as the code has it. When the sender's last claim is today, the
    claim is turned down with the already-claimed reply; points, streak
    and last claim of every stored user are unchanged and no game is
    touched, but the sender's display name is first refreshed to the
    name derived from the current profile. *)
Theorem claim_already_claimed (today : Z) (update : Update) (s : St) (u : User) :
  find_one (by_user_id (tg_id (from_user update))) (users_collection s) = Some u ->
  last_claim u = Some today ->
  let r := claim today update s in
  let name := get_display_name (from_user update) in
  fst r = Ok tt /\
  outbox (snd r) = outbox s ++ [ReplyTo (chat_id update) AlreadyClaimed] /\
  games_collection (snd r) = games_collection s /\
  users_collection (snd r)
  = update_one (by_user_id (tg_id (from_user update))) (set_display_name name)
               (users_collection s) /\
  map points (users_collection (snd r)) = map points (users_collection s) /\
  map streak (users_collection (snd r)) = map streak (users_collection s) /\
  map last_claim (users_collection (snd r)) = map last_claim (users_collection s) /\
  sender_after update r
  = Some (mkUser (user_id u) name (points u) (streak u) (last_claim u)).
Proof.
  intros Hfind Hlc r name.
  assert (Hr : r = (Ok tt,
                    mkSt (update_one (by_user_id (tg_id (from_user update)))
                                     (set_display_name name) (users_collection s))
                         (games_collection s) (user_data s)
                         (outbox s ++ [ReplyTo (chat_id update) AlreadyClaimed]))).
  { unfold r. rewrite (claim_existing _ _ _ _ Hfind). cbn zeta.
    rewrite bool_decide_eq_true_2 by exact Hlc. fold name.
    destruct (String.eqb (display_name u) name) eqn:En; cbn [negb]; [|reflexivity].
    now rewrite (update_one_fixed _ _ _ _ Hfind (set_display_name_same _ _ En)). }
  unfold sender_after. rewrite Hr. cbn [fst snd users_collection games_collection outbox].
  repeat split; try (apply map_update_one; reflexivity).
  change (mkUser (user_id u) name (points u) (streak u) (last_claim u))
    with (set_display_name name u).
  apply (find_one_update_one _ _ _ _ Hfind).
  rewrite by_user_id_set_display_name. now apply (find_one_Some _ _ _ Hfind).
Qed.

(** C10. Claiming needs no game: in a store with no active game (none at
    all included), the first claim of a sender creates the user document
    and scores it by the usual rule (one point, streak one, last claim
    today), and the games are left as they were. *)
Theorem claim_needs_no_game (today : Z) (update : Update) (s : St) :
  find_one active (games_collection s) = None ->
  find_one (by_user_id (tg_id (from_user update))) (users_collection s) = None ->
  let name := get_display_name (from_user update) in
  claim today update s
  = (Ok tt,
     mkSt (users_collection s ++ [mkUser (tg_id (from_user update)) name 1 1 (Some today)])
          (games_collection s) (user_data s)
          (outbox s ++ [ReplyTo (chat_id update) (Claimed name 1 1)])).
Proof. intros _ Hfind. apply claim_new, Hfind. Qed.

(** ** Ending a day and ending the game *)

Lemma leaderboard_found (update : Update) (s : St) (g : Game) :
  find_one active (games_collection s) = Some g ->
  exists m, leaderboard update s
            = (Ok tt, mkSt (users_collection s) (games_collection s) (user_data s)
                           (outbox s ++ [ReplyTo (chat_id update) m]))
            /\ forall c n, m <> DayEnded c n.
Proof.
  intros Hfind. unfold leaderboard. unfold_handlers. rewrite Hfind.
  cbn [users_collection games_collection user_data outbox].
  eexists. split; [reflexivity|].
  intros c n. destruct (String.eqb (mode g) "Individual"); [discriminate|].
  destruct (String.eqb (mode g) "Team"); discriminate.
Qed.

Section AdminFacts.
Variable ADMIN_ID : Z.

(** An administrator ending the active game: final leaderboard, the
    end-of-game reply, and both collections emptied. *)
Lemma end_game_wipes (update : Update) (s : St) (g : Game) :
  is_admin ADMIN_ID update = true ->
  find_one active (games_collection s) = Some g ->
  exists m, end_game ADMIN_ID update s
            = (Ok tt, mkSt [] [] (user_data s)
                           (outbox s ++ [ReplyTo (chat_id update) m;
                                         ReplyTo (chat_id update) GameEnded]))
            /\ forall c n, m <> DayEnded c n.
Proof.
  intros Hadmin Hfind. unfold end_game. rewrite Hadmin. cbn [negb].
  destruct (leaderboard_found update s g Hfind) as (m & Hm & Hne).
  exists m. split; [|exact Hne].
  unfold bind at 1. unfold games_find_one at 1. unfold_handlers.
  rewrite Hfind. rewrite Hm.
  cbn [users_collection games_collection user_data outbox].
  rewrite !delete_many_everything. now rewrite <- app_assoc.
Qed.
End AdminFacts.

Lemma day_threshold_passed (d : string) (N n : Z) :
  day_threshold d = Some N -> day_limit_passed d n = (N <? n).
Proof.
  unfold day_threshold, day_limit_passed.
  destruct (String.eqb_spec d "1 week") as [->|_]; [intros [= <-]; cbn; now rewrite !orb_false_r|].
  destruct (String.eqb_spec d "2 weeks") as [->|_]; [intros [= <-]; cbn; now rewrite !orb_false_r|].
  destruct (String.eqb_spec d "1 month") as [->|_]; [intros [= <-]; reflexivity|].
  discriminate.
Qed.

Lemma daily_summary_frame (s : St) :
  exists out, daily_summary s
              = (Ok tt, mkSt (users_collection s) (games_collection s) (user_data s)
                             (outbox s ++ out)).
Proof.
  unfold daily_summary. unfold_handlers.
  destruct (find_one active (games_collection s)).
  - eexists. reflexivity.
  - exists []. rewrite app_nil_r. now destruct s.
Qed.

Section EndDayFacts.
Variable ADMIN_ID : Z.

(** [end_day] by an administrator on an active game: advance, then
    either end the game or announce the new day. *)
Lemma end_day_cases (update : Update) (s : St) (g : Game) :
  is_admin ADMIN_ID update = true ->
  find_one active (games_collection s) = Some g ->
  end_day ADMIN_ID update s
  = if day_limit_passed (duration g) (day g + 1)
    then end_game ADMIN_ID update (day_advanced g s)
    else bind (reply_text update (DayEnded (day g) (day g + 1)))
              (fun _ => daily_summary) (day_advanced g s).
Proof.
  intros Hadmin Hfind. unfold end_day, day_limit_passed. rewrite Hadmin. cbn [negb].
  unfold bind at 1. unfold games_find_one at 1. unfold bind at 1.
  unfold read_games at 1. unfold ret at 1. rewrite Hfind.
  unfold bind at 1. unfold with_games at 1. unfold bind at 1. unfold with_users at 1.
  cbn [users_collection games_collection user_data outbox].
  rewrite update_many_everything.
  change (mkSt _ _ (user_data s) (outbox s)) with (day_advanced g s).
  destruct (String.eqb (duration g) "1 week" && (7 <? day g + 1)); [reflexivity|].
  destruct (String.eqb (duration g) "2 weeks" && (14 <? day g + 1)); [reflexivity|].
  destruct (String.eqb (duration g) "1 month" && (30 <? day g + 1)); reflexivity.
Qed.

Lemma day_advanced_still_active (s : St) (g : Game) :
  find_one active (games_collection s) = Some g ->
  exists g', find_one active (games_collection (day_advanced g s)) = Some g'.
Proof.
  intros Hfind. cbn [day_advanced games_collection].
  destruct (find_one_update_one_other active (by_game_id (game_id g))
              (set_day (day g + 1)) _ _ (fun e => eq_refl) Hfind); eauto.
Qed.

(** C3. An administrator's end-of-day on an active game whose
    incremented day counter strictly exceeds the day count of its
    duration (7, 14 or 30) ends the game: the replies are the final
    leaderboard and the end-of-game message, none of them a new-day
    announcement, and afterwards no game and no user document is
    left. *)
Theorem end_day_past_threshold_ends_game
        (update : Update) (s : St) (g : Game) (N : Z) :
  is_admin ADMIN_ID update = true ->
  find_one active (games_collection s) = Some g ->
  day_threshold (duration g) = Some N ->
  N < day g + 1 ->
  exists m,
    end_day ADMIN_ID update s
    = (Ok tt, mkSt [] [] (user_data s)
                   (outbox s ++ [ReplyTo (chat_id update) m;
                                 ReplyTo (chat_id update) GameEnded]))
    /\ forall c n, m <> DayEnded c n.
Proof.
  intros Hadmin Hfind HN Hlt.
  rewrite (end_day_cases _ _ _ Hadmin Hfind).
  rewrite (day_threshold_passed _ _ _ HN).
  apply Z.ltb_lt in Hlt. rewrite Hlt.
  destruct (day_advanced_still_active s g Hfind) as [g' Hg'].
  apply (end_game_wipes ADMIN_ID update (day_advanced g s) g' Hadmin Hg').
Qed.

(** C7. An administrator's end-of-day on the active game [g] advances
    the store to [day_advanced g s]: the day counter of [g] is one
    more, every user has streak 0 and no last claim, and every user's
    points and display name are what they were.  That store is the
    result when the game goes on, and the store the game is ended from
    when the day limit is passed. *)
Theorem end_day_resets_daily_state (update : Update) (s : St) (g : Game) :
  is_admin ADMIN_ID update = true ->
  find_one active (games_collection s) = Some g ->
  NoDup (map game_id (games_collection s)) ->
  find_one active (games_collection (day_advanced g s)) = Some (set_day (day g + 1) g)
  /\ map streak (users_collection (day_advanced g s))
     = map (fun _ => 0) (users_collection s)
  /\ map last_claim (users_collection (day_advanced g s))
     = map (fun _ => None) (users_collection s)
  /\ map points (users_collection (day_advanced g s)) = map points (users_collection s)
  /\ map display_name (users_collection (day_advanced g s))
     = map display_name (users_collection s)
  /\ map user_id (users_collection (day_advanced g s)) = map user_id (users_collection s)
  /\ (day_limit_passed (duration g) (day g + 1) = false ->
      exists out,
        end_day ADMIN_ID update s
        = (Ok tt, mkSt (users_collection (day_advanced g s))
                       (games_collection (day_advanced g s))
                       (user_data s) (outbox s ++ out)))
  /\ (day_limit_passed (duration g) (day g + 1) = true ->
      end_day ADMIN_ID update s = end_game ADMIN_ID update (day_advanced g s)).
Proof.
  intros Hadmin Hfind Hnd.
  split; [apply find_active_update_by_id; auto|].
  cbn [day_advanced users_collection]. rewrite !map_map. cbn [streak last_claim points display_name user_id].
  do 5 (split; [reflexivity|]).
  rewrite (end_day_cases _ _ _ Hadmin Hfind).
  split; intros ->; [|reflexivity].
  unfold bind at 1. unfold reply_text, emit.
  destruct (daily_summary_frame
              (mkSt (users_collection (day_advanced g s))
                    (games_collection (day_advanced g s))
                    (user_data (day_advanced g s))
                    (outbox (day_advanced g s)
                       ++ [ReplyTo (chat_id update) (DayEnded (day g) (day g + 1))])))
    as [out Hout].
  rewrite Hout. cbn [users_collection games_collection user_data outbox day_advanced].
  eexists. now rewrite <- app_assoc.
Qed.
End EndDayFacts.

(** ** Team balance *)

(** C9. A sender with no user document joining an active Team game is
    appended to the strictly smaller roster when the sizes differ and to
    the roster picked by the random draw when they are equal; in every
    case exactly one roster gains exactly that one name at its end and
    the other is unchanged. *)
Theorem join_team_balance (coin : bool) (update : Update) (s : St) (g : Game) :
  find_one (by_user_id (tg_id (from_user update))) (users_collection s) = None ->
  find_one active (games_collection s) = Some g ->
  mode g = "Team" ->
  NoDup (map game_id (games_collection s)) ->
  let name := get_display_name (from_user update) in
  let grows_a g' := team_1 g' = team_1 g ++ [name] /\ team_2 g' = team_2 g in
  let grows_b g' := team_1 g' = team_1 g /\ team_2 g' = team_2 g ++ [name] in
  exists g',
    fst (join coin update s) = Ok tt /\
    find_one active (games_collection (snd (join coin update s))) = Some g' /\
    game_id g' = game_id g /\
    ((length (team_1 g) < length (team_2 g))%nat -> grows_a g') /\
    ((length (team_2 g) < length (team_1 g))%nat -> grows_b g') /\
    (length (team_1 g) = length (team_2 g) -> if coin then grows_a g' else grows_b g') /\
    (grows_a g' \/ grows_b g') /\
    (length (team_1 g') + length (team_2 g')
     = length (team_1 g) + length (team_2 g) + 1)%nat.
Proof.
  intros Huser Hgame Hmode Hnd name grows_a grows_b.
  unfold join. unfold_handlers. rewrite Huser, Hgame, Hmode, String.eqb_refl.
  fold name.
  destruct (Nat.ltb_spec (length (team_1 g)) (length (team_2 g))) as [Hab|Hab];
    [|destruct (Nat.ltb_spec (length (team_2 g)) (length (team_1 g))) as [Hba|Hba];
      [|destruct coin]];
    cbn [fst snd users_collection games_collection user_data outbox];
    rewrite (find_active_update_by_id (set_teams _ _) _ _ Hnd (fun h => eq_refl) Hgame);
    eexists; (split; [reflexivity|]); (split; [reflexivity|]);
    unfold grows_a, grows_b; cbn [set_teams team_1 team_2 game_id];
    rewrite ?length_app; cbn [length];
    repeat split; intros; auto; try lia.
Qed.

(** ** The scheduled job *)

Lemma find_all_head {A} (q : A -> bool) (c : list A) (d : A) :
  find_one q c = Some d -> exists rest, find_all q c = d :: rest.
Proof.
  induction c as [|e c IH]; simpl; [discriminate|].
  destruct (q e).
  - intros [= ->]. eauto.
  - exact IH.
Qed.

Lemma find_all_none {A} (q : A -> bool) (c : list A) :
  find_one q c = None -> find_all q c = [].
Proof.
  induction c as [|e c IH]; simpl; [reflexivity|].
  destruct (q e); [discriminate|exact IH].
Qed.

(** With an active game stored, the check stops at the subtraction of
    the stored start date from the current time, before any update and
    any message. *)
Lemma check_game_end_raises (clock : Z) (s : St) (g : Game) :
  find_one active (games_collection s) = Some g ->
  check_game_end clock s = (Raise TypeError, s).
Proof.
  intros Hfind. unfold check_game_end. unfold bind at 1. unfold read_games.
  destruct (find_all_head _ _ _ Hfind) as [rest ->]. reflexivity.
Qed.

(** With no active game the loop body never runs. *)
Lemma check_game_end_idle (clock : Z) (s : St) :
  find_one active (games_collection s) = None ->
  check_game_end clock s = (Ok tt, s).
Proof.
  intros Hnone. unfold check_game_end. unfold bind at 1. unfold read_games.
  now rewrite (find_all_none _ _ Hnone).
Qed.

Lemma check_game_end_unchanged (clock : Z) (s : St) :
  snd (check_game_end clock s) = s.
Proof.
  destruct (find_one active (games_collection s)) as [g|] eqn:Hfind.
  - now rewrite (check_game_end_raises _ _ _ Hfind).
  - now rewrite (check_game_end_idle _ _ Hfind).
Qed.

Lemma cron_unchanged (clock : Z) (w : World) : cron clock w = w.
Proof. reflexivity. Qed.

(** C8, as the code has it. A firing of the daily scheduled job never
    advances a day: it leaves every game's day counter and every user
    document as it found them; indeed the check writes nothing to the
    store, and the registered job leaves the whole world as it was. *)
Theorem scheduler_never_advances_day (clock : Z) (s : St) :
  let r := scheduled_check_game_end clock s in
  map day (games_collection (snd r)) = map day (games_collection s) /\
  map game_id (games_collection (snd r)) = map game_id (games_collection s) /\
  users_collection (snd r) = users_collection s /\
  snd r = s /\
  forall w, cron clock w = w.
Proof.
  cbn zeta. unfold scheduled_check_game_end.
  rewrite check_game_end_unchanged. repeat split.
Qed.

(** ** The setup dialogue *)

(** C5, as the code has it. No setup state validates the text it is
    sent.  From the initiator, any text at all is stored as the mode and
    moves the dialogue on to the duration question, any text is stored
    as the duration and moves it on to the penalties question, and any
    text at the penalties question commits an active game that carries
    the stored mode and duration as typed, with penalties on exactly
    when the text is Yes, and resets every user; the first two steps
    touch neither collection. *)
Theorem setup_accepts_any_text (coin : bool) (clock : Z) (update : Update) (s : St) :
  is_initiator update (user_data s) = true ->
  (let r := select_mode coin update s in
   fst r = Ok (Goto SET_DURATION) /\
   users_collection (snd r) = users_collection s /\
   games_collection (snd r) = games_collection s /\
   ud_mode (user_data (snd r)) = Some (text update))
  /\ (let r := set_duration update s in
      fst r = Ok (Goto CONFIRM_PENALTIES) /\
      users_collection (snd r) = users_collection s /\
      games_collection (snd r) = games_collection s /\
      ud_duration (user_data (snd r)) = Some (text update))
  /\ (forall m d,
        ud_mode (user_data s) = Some m ->
        ud_duration (user_data s) = Some d ->
        find_one (by_game_id clock) (games_collection s) = None ->
        let r := confirm_penalties clock update s in
        fst r = Ok END /\
        games_collection (snd r)
        = games_collection s
            ++ [mkGame clock m d (String.eqb (text update) "Yes")
                       (default [] (ud_team_1 (user_data s)))
                       (default [] (ud_team_2 (user_data s)))
                       true 1 clock] /\
        users_collection (snd r) = map (set_claim 0 0 None) (users_collection s)).
Proof.
  intros Hinit. repeat apply conj.
  - unfold select_mode. unfold_handlers. rewrite Hinit. cbn [negb].
    destruct (String.eqb (text update) "Team"); [destruct coin|]; reflexivity.
  - unfold select_mode. unfold_handlers. rewrite Hinit. cbn [negb].
    destruct (String.eqb (text update) "Team"); [destruct coin|]; reflexivity.
  - unfold select_mode. unfold_handlers. rewrite Hinit. cbn [negb].
    destruct (String.eqb (text update) "Team"); [destruct coin|]; reflexivity.
  - unfold select_mode. unfold_handlers. rewrite Hinit. cbn [negb].
    destruct (String.eqb (text update) "Team"); [destruct coin|]; reflexivity.
  - unfold set_duration. unfold_handlers. now rewrite Hinit.
  - unfold set_duration. unfold_handlers. now rewrite Hinit.
  - unfold set_duration. unfold_handlers. now rewrite Hinit.
  - unfold set_duration. unfold_handlers. now rewrite Hinit.
  - intros m d Hm Hd Hfresh r.
    assert (Hr : r = (Ok END,
                      mkSt (map (set_claim 0 0 None) (users_collection s))
                           (games_collection s
                              ++ [mkGame clock m d (String.eqb (text update) "Yes")
                                         (default [] (ud_team_1 (user_data s)))
                                         (default [] (ud_team_2 (user_data s)))
                                         true 1 clock])
                           (mkUserData (initiator_id (user_data s)) (Some m) (Some d)
                                       (Some (String.eqb (text update) "Yes"))
                                       (ud_team_1 (user_data s)) (ud_team_2 (user_data s)))
                           (outbox s
                              ++ [ReplyTo (chat_id update)
                                    (if String.eqb m "Team"
                                     then GameStartedTeam
                                            (default [] (ud_team_1 (user_data s)))
                                            (default [] (ud_team_2 (user_data s)))
                                     else GameStartedIndividual)]))).
    { unfold r, confirm_penalties. unfold_handlers. rewrite Hinit. cbn [negb].
      cbn [users_collection games_collection user_data outbox
           ud_mode ud_duration ud_penalties ud_team_1 ud_team_2 game_id].
      rewrite Hm, Hd.
      cbn [users_collection games_collection user_data outbox
           ud_mode ud_duration ud_penalties ud_team_1 ud_team_2 game_id].
      rewrite Hfresh.
      cbn [users_collection games_collection user_data outbox
           ud_mode ud_duration ud_penalties ud_team_1 ud_team_2 game_id team_1 team_2].
      rewrite ?Hm. reflexivity. }
    rewrite Hr. repeat split.
Qed.

(** ** Concrete runs *)

(** The guard of [start]: with a game active, the setup is refused, no
    conversation is opened and nothing is written. *)
Lemma start_rejected_when_active (update : Update) (s : St) (g : Game) :
  find_one active (games_collection s) = Some g ->
  start update s
  = (Ok END, mkSt (users_collection s) (games_collection s) (user_data s)
                  (outbox s ++ [ReplyTo (chat_id update) AlreadyStarted])).
Proof. intros H. unfold start. unfold_handlers. now rewrite H. Qed.

(** C2. Two users, each in a chat of their own, who both begin a setup
    while no game is active both pass the guard of [start]; each then
    commits, and the store holds two active games.  A third [/start]
    after that is refused. *)
Theorem overlapping_setups_two_active_games :
  let w := run admin_id overlapping_setups initial_world in
  map active (db_games w) = [true; true] /\
  map game_id (db_games w) = [1000; 2000] /\
  length (find_all active (db_games w)) = 2%nat /\
  let w' := step admin_id w (at_time 10 3000 (Some CmdStart) (says coach "/start")) in
  db_games w' = db_games w /\
  conversations w' !! (100, 1) = None /\
  sent w' = sent w ++ [ReplyTo 100 AlreadyStarted].
Proof. vm_compute. repeat split. Qed.

(** C4, counterexample. Alice claimed today under the name alice and
    claims again after changing her username: the claim is turned down,
    yet her stored display name has changed. *)
Lemma claim_already_claimed_renames :
  let update := says alice_renamed "/claim" in
  let s := store_on_day 1 in
  let r := claim 10 update s in
  last_claim <$> sender_after update (Ok tt, s) = Some (Some 10) /\
  outbox (snd r) = [ReplyTo 100 AlreadyClaimed] /\
  display_name <$> sender_after update (Ok tt, s) = Some "alice" /\
  display_name <$> sender_after update r = Some "alice_lifts".
Proof. vm_compute. repeat split. Qed.

(** C5, counterexample. Text outside the offered choices does not
    re-prompt: the dialogue moves on after each answer, and the last one
    commits a game whose mode and duration are the free text. *)
Lemma setup_commits_unrecognized_text :
  conversations (run admin_id (firstn 2 free_text_setup) initial_world) !! (100, 2)
  = Some SET_DURATION /\
  conversations (run admin_id (firstn 3 free_text_setup) initial_world) !! (100, 2)
  = Some CONFIRM_PENALTIES /\
  db_games (run admin_id free_text_setup initial_world)
  = [mkGame 0 "Yoga" "forever" false [] [] true 1 0].
Proof. vm_compute. repeat split. Qed.

(** C8, counterexample. On the same store, the scheduled job leaves the
    game on day 1 while an administrator's end-of-day moves it to
    day 2. *)
Lemma scheduler_does_not_advance_day :
  let s := store_on_day 1 in
  map day (games_collection (snd (scheduled_check_game_end day_length s))) = [1] /\
  map day (games_collection (snd (end_day admin_id (says coach "/endday") s))) = [2].
Proof. vm_compute. repeat split. Qed.

(** ** The theorems at concrete inputs *)

Lemma claim_streak_and_points_witness :
  let update := says alice "/claim" in
  last_claim (prior_state update empty_store) <> Some 10 /\
  (exists u',
      sender_after update (claim 10 update empty_store) = Some u' /\
      streak u' = 1 /\ points u' = 1 /\ last_claim u' = Some 10) /\
  points_after_claims update [10; 11; 12; 13; 14; 15; 16] empty_store
  = [Some 1; Some 2; Some 3; Some 4; Some 5; Some 6; Some 10].
Proof.
  intros update.
  assert (H : last_claim (prior_state update empty_store) <> Some 10) by discriminate.
  destruct (claim_streak_and_points 10 update empty_store H) as [(u' & Hu & Hk & Hp & Hl) Hseq].
  split; [exact H|]. split.
  - exists u'. split; [exact Hu|]. split; [exact Hk|]. split; [|exact Hl].
    rewrite Hp, Hk. reflexivity.
  - apply Hseq; reflexivity.
Defined.

Lemma claim_already_claimed_witness :
  let update := says alice_renamed "/claim" in
  let s := store_on_day 1 in
  find_one (by_user_id 2) (users_collection s) = Some alice_doc /\
  last_claim alice_doc = Some 10 /\
  fst (claim 10 update s) = Ok tt /\
  map points (users_collection (snd (claim 10 update s))) = [5] /\
  map streak (users_collection (snd (claim 10 update s))) = [2] /\
  map last_claim (users_collection (snd (claim 10 update s))) = [Some 10] /\
  sender_after update (claim 10 update s) = Some (mkUser 2 "alice_lifts" 5 2 (Some 10)).
Proof.
  intros update s.
  assert (H1 : find_one (by_user_id (tg_id (from_user update))) (users_collection s)
               = Some alice_doc) by reflexivity.
  assert (H2 : last_claim alice_doc = Some 10) by reflexivity.
  destruct (claim_already_claimed 10 update s alice_doc H1 H2)
    as (Hr & _ & _ & _ & Hp & Hk & Hl & Hu).
  repeat split; assumption.
Defined.

Lemma claim_needs_no_game_witness :
  let update := says bob "/claim" in
  find_one active (games_collection empty_store) = None /\
  find_one (by_user_id 3) (users_collection empty_store) = None /\
  claim 10 update empty_store
  = (Ok tt, mkSt [mkUser 3 "Bob Builder" 1 1 (Some 10)] [] empty_user_data
                 [ReplyTo 100 (Claimed "Bob Builder" 1 1)]).
Proof.
  intros update.
  assert (H1 : find_one active (games_collection empty_store) = None) by reflexivity.
  assert (H2 : find_one (by_user_id (tg_id (from_user update)))
                        (users_collection empty_store) = None) by reflexivity.
  split; [exact H1|]. split; [exact H2|].
  exact (claim_needs_no_game 10 update empty_store H1 H2).
Defined.

Lemma end_day_past_threshold_ends_game_witness :
  let update := says coach "/endday" in
  let s := store_on_day 7 in
  is_admin admin_id update = true /\
  find_one active (games_collection s) = Some (week_game 7) /\
  day_threshold (duration (week_game 7)) = Some 7 /\
  7 < day (week_game 7) + 1 /\
  exists m,
    end_day admin_id update s
    = (Ok tt, mkSt [] [] empty_user_data [ReplyTo 100 m; ReplyTo 100 GameEnded])
    /\ forall c n, m <> DayEnded c n.
Proof.
  intros update s.
  assert (H1 : is_admin admin_id update = true) by reflexivity.
  assert (H2 : find_one active (games_collection s) = Some (week_game 7)) by reflexivity.
  assert (H3 : day_threshold (duration (week_game 7)) = Some 7) by reflexivity.
  assert (H4 : 7 < day (week_game 7) + 1) by (simpl; lia).
  split; [exact H1|]. split; [exact H2|]. split; [exact H3|]. split; [exact H4|].
  exact (end_day_past_threshold_ends_game admin_id update s (week_game 7) 7 H1 H2 H3 H4).
Defined.

Lemma end_day_resets_daily_state_witness :
  let update := says coach "/endday" in
  let s := store_on_day 3 in
  is_admin admin_id update = true /\
  find_one active (games_collection s) = Some (week_game 3) /\
  NoDup (map game_id (games_collection s)) /\
  exists out,
    end_day admin_id update s
    = (Ok tt, mkSt [mkUser 2 "alice" 5 0 None] [week_game 4] empty_user_data out).
Proof.
  intros update s.
  assert (H1 : is_admin admin_id update = true) by reflexivity.
  assert (H2 : find_one active (games_collection s) = Some (week_game 3)) by reflexivity.
  assert (H3 : NoDup (map game_id (games_collection s))) by apply NoDup_singleton.
  split; [exact H1|]. split; [exact H2|]. split; [exact H3|].
  destruct (end_day_resets_daily_state admin_id update s (week_game 3) H1 H2 H3)
    as (_ & _ & _ & _ & _ & _ & Hon & _).
  destruct (Hon eq_refl) as [out Hout].
  exists ([] ++ out). exact Hout.
Defined.

Lemma join_team_balance_witness :
  let update := says bob "/join" in
  find_one (by_user_id 3) (users_collection team_store) = None /\
  find_one active (games_collection team_store) = Some team_game /\
  mode team_game = "Team" /\
  NoDup (map game_id (games_collection team_store)) /\
  exists g',
    find_one active (games_collection (snd (join true update team_store))) = Some g' /\
    team_1 g' = ["alice"] /\ team_2 g' = ["Bob Builder"].
Proof.
  intros update.
  assert (H1 : find_one (by_user_id (tg_id (from_user update)))
                        (users_collection team_store) = None) by reflexivity.
  assert (H2 : find_one active (games_collection team_store) = Some team_game)
    by reflexivity.
  assert (H3 : mode team_game = "Team") by reflexivity.
  assert (H4 : NoDup (map game_id (games_collection team_store)))
    by apply NoDup_singleton.
  split; [exact H1|]. split; [exact H2|]. split; [exact H3|]. split; [exact H4|].
  destruct (join_team_balance true update team_store team_game H1 H2 H3 H4)
    as (g' & _ & Hg' & _ & _ & Hb & _).
  exists g'. split; [exact Hg'|].
  destruct (Hb ltac:(simpl; lia)) as [Ha Hbb]. split; assumption.
Defined.

Lemma setup_accepts_any_text_witness :
  let s := setup_store in
  is_initiator (says alice "maybe") (user_data s) = true /\
  fst (select_mode true (says alice "Yoga") s) = Ok (Goto SET_DURATION) /\
  fst (set_duration (says alice "forever") s) = Ok (Goto CONFIRM_PENALTIES) /\
  games_collection (snd (confirm_penalties 0 (says alice "maybe") s))
  = [mkGame 0 "Yoga" "forever" false [] [] true 1 0].
Proof.
  intros s.
  assert (H : is_initiator (says alice "maybe") (user_data s) = true) by reflexivity.
  split; [exact H|].
  split; [apply (setup_accepts_any_text true 0 (says alice "Yoga") s H)|].
  split; [apply (setup_accepts_any_text true 0 (says alice "forever") s H)|].
  destruct (setup_accepts_any_text true 0 (says alice "maybe") s H) as (_ & _ & Hc).
  apply (Hc "Yoga" "forever" eq_refl eq_refl eq_refl).
Defined.

(** * Further properties of the handlers *)

(** ** Display names *)

Lemma truthy_Some (o : option string) :
  truthy o = true -> exists c s, o = Some (String c s).
Proof.
  destruct o as [[|c s]|]; cbn; try discriminate. eauto.
Qed.

(** X1. The derived display name is never empty, and a non-empty
    username always wins over the first and last name. *)
Theorem get_display_name_nonempty (user_obj : TgUser) :
  get_display_name user_obj <> ""
  /\ (forall n, username user_obj = Some n -> n <> "" ->
                get_display_name user_obj = n).
Proof.
  unfold get_display_name. split.
  - destruct (truthy (username user_obj)) eqn:Eu.
    + destruct (truthy_Some _ Eu) as (c & s & ->). discriminate.
    + destruct (truthy (first_name user_obj)) eqn:Ef; cbn [andb].
      * destruct (truthy_Some _ Ef) as (c & s & ->).
        destruct (truthy (last_name user_obj)); discriminate.
      * discriminate.
  - intros n Hn Hne. rewrite Hn. cbn [truthy default].
    destruct (String.eqb_spec n ""); [contradiction|reflexivity].
Qed.

(** ** Claims *)

Section OthersFacts.
Context {A : Type}.
Implicit Types (q : A -> bool) (f : A -> A) (c : list A).

Lemma find_all_update_one_others q f c :
  (forall d, q d = true -> q (f d) = true) ->
  find_all (fun d => negb (q d)) (update_one q f c)
  = find_all (fun d => negb (q d)) c.
Proof.
  intros Hq. induction c as [|e c IH]; cbn; [reflexivity|].
  destruct (q e) eqn:E; cbn.
  - now rewrite (Hq e E).
  - now rewrite E, IH.
Qed.

Lemma find_all_app_skip (p : A -> bool) c d :
  p d = false -> find_all p (c ++ [d]) = find_all p c.
Proof.
  intros Hd. induction c as [|e c IH]; cbn.
  - now rewrite Hd.
  - destruct (p e); now rewrite IH.
Qed.
End OthersFacts.

(** After any claim the sender has a document under the current name
    whose last claim is today. *)
Lemma claim_leaves_sender (today : Z) (update : Update) (s : St) :
  exists p k,
    sender_after update (claim today update s)
    = Some (mkUser (tg_id (from_user update)) (get_display_name (from_user update))
                   p k (Some today)).
Proof.
  destruct (decide (last_claim (prior_state update s) = Some today)) as [Hlc|Hlc].
  - unfold prior_state in Hlc. unfold sender_after.
    destruct (find_one _ (users_collection s)) as [u|] eqn:Hfind;
      cbn [default] in Hlc; [|discriminate].
    rewrite (claim_existing _ _ _ _ Hfind). cbn zeta.
    rewrite bool_decide_eq_true_2 by exact Hlc. cbn [snd users_collection].
    destruct (find_one_Some _ _ _ Hfind) as [_ Hid]. apply Z.eqb_eq in Hid.
    exists (points u), (streak u).
    destruct (String.eqb (display_name u) _) eqn:En; cbn [negb].
    + rewrite Hfind. apply String.eqb_eq in En.
      destruct u; cbn in *. now subst.
    + rewrite (find_one_update_one _ _ _ _ Hfind)
        by (unfold by_user_id; now apply Z.eqb_eq).
      destruct u; cbn in *. now subst.
  - eexists _, _. apply claim_scored. exact Hlc.
Qed.

(** X2. One scored claim a day: whatever the store, a second claim by
    the same sender on the same day is turned down and leaves the whole
    store as the first claim left it. *)
Theorem claim_twice_same_day (today : Z) (update : Update) (s : St) :
  let s1 := snd (claim today update s) in
  claim today update s1 = (Ok tt, said s1 (ReplyTo (chat_id update) AlreadyClaimed)).
Proof.
  intros s1.
  destruct (claim_leaves_sender today update s) as (p & k & Hs).
  unfold sender_after in Hs. fold s1 in Hs.
  rewrite (claim_existing _ _ _ _ Hs). cbn zeta.
  cbn [display_name last_claim]. rewrite String.eqb_refl.
  rewrite bool_decide_eq_true_2 by reflexivity. reflexivity.
Qed.

(** X3. A claim never raises, never writes a game, and never touches
    the document of anyone but the sender: the documents of the other
    users are the same, in the same order, before and after. *)
Theorem claim_frame (today : Z) (update : Update) (s : St) :
  let r := claim today update s in
  let uid := tg_id (from_user update) in
  fst r = Ok tt /\
  games_collection (snd r) = games_collection s /\
  user_data (snd r) = user_data s /\
  find_all (others uid) (users_collection (snd r))
  = find_all (others uid) (users_collection s).
Proof.
  cbn zeta. unfold others.
  destruct (find_one (by_user_id (tg_id (from_user update))) (users_collection s))
    as [u|] eqn:Hfind.
  - rewrite (claim_existing _ _ _ _ Hfind). cbn zeta.
    assert (Hre : forall c,
               find_all (fun d => negb (by_user_id (tg_id (from_user update)) d))
                 (if negb (String.eqb (display_name u)
                                      (get_display_name (from_user update)))
                  then update_one (by_user_id (tg_id (from_user update)))
                         (set_display_name (get_display_name (from_user update))) c
                  else c)
               = find_all (fun d => negb (by_user_id (tg_id (from_user update)) d)) c).
    { intros c. destruct (negb _); [|reflexivity].
      apply find_all_update_one_others. auto. }
    destruct (bool_decide _); cbn [fst snd users_collection games_collection user_data].
    + repeat split. apply Hre.
    + repeat split. rewrite find_all_update_one_others by auto. apply Hre.
  - rewrite (claim_new _ _ _ Hfind).
    cbn [fst snd users_collection games_collection user_data].
    repeat split. apply find_all_app_skip.
    unfold by_user_id; cbn. now rewrite Z.eqb_refl.
Qed.

(** ** Administrator commands *)

Section AdminCommandFacts.
Variable ADMIN_ID : Z.

(** X4. A reset by the administrator needs no game: it zeroes points,
    streak and last claim of every user, keeps every document with its
    id and name, leaves the games alone, and a second reset changes
    nothing more. *)
Theorem reset_zeroes_and_is_idempotent (update : Update) (s : St) :
  is_admin ADMIN_ID update = true ->
  let s1 := snd (reset ADMIN_ID update s) in
  fst (reset ADMIN_ID update s) = Ok tt /\
  users_collection s1
  = map (fun u => mkUser (user_id u) (display_name u) 0 0 None) (users_collection s) /\
  games_collection s1 = games_collection s /\
  users_collection (snd (reset ADMIN_ID update s1)) = users_collection s1.
Proof.
  intros Hadmin. unfold reset. rewrite Hadmin. cbn [negb]. unfold_handlers.
  cbn [fst snd users_collection games_collection].
  rewrite !update_many_everything. repeat split.
  rewrite map_map. reflexivity.
Qed.

(** X5. Every administrator command sent by anyone else is refused and
    writes nothing: the three lifecycle commands reply not-authorized and
    leave the store as it was, and so do both point commands, whatever
    their text parses to. *)
Theorem not_admin_no_effect (update : Update) (s : St) :
  is_admin ADMIN_ID update = false ->
  end_game ADMIN_ID update s = (Ok tt, said s (ReplyTo (chat_id update) NotAuthorized)) /\
  reset ADMIN_ID update s = (Ok tt, said s (ReplyTo (chat_id update) NotAuthorized)) /\
  end_day ADMIN_ID update s = (Ok tt, said s (ReplyTo (chat_id update) NotAuthorized)) /\
  (forall split int,
      admin_override ADMIN_ID split int update s = (Ok PointsNotAuthorized, s) /\
      set_points ADMIN_ID split int update s = (Ok PointsNotAuthorized, s)).
Proof.
  intros Hadmin.
  unfold end_game, reset, end_day, admin_override, set_points.
  rewrite Hadmin. cbn [negb]. repeat split.
Qed.

(** X6. With no active game, the administrator's end-of-game and
    end-of-day only say so: no user is reset or deleted, no game is
    written, even when ended games are still stored. *)
Theorem admin_commands_need_active_game (update : Update) (s : St) :
  is_admin ADMIN_ID update = true ->
  find_one active (games_collection s) = None ->
  end_game ADMIN_ID update s
  = (Ok tt, said s (ReplyTo (chat_id update) NoActiveGameToEnd)) /\
  end_day ADMIN_ID update s
  = (Ok tt, said s (ReplyTo (chat_id update) NoActiveGameFound)).
Proof.
  intros Hadmin Hnone. unfold end_game, end_day. rewrite Hadmin. cbn [negb].
  unfold_handlers. rewrite Hnone. split; reflexivity.
Qed.
End AdminCommandFacts.

(** ** Joining *)

(** The sender is new and a game is active: the exact outcome of
    [join]. *)
Lemma join_accepted (coin : bool) (update : Update) (s : St) (g : Game) :
  find_one (by_user_id (tg_id (from_user update))) (users_collection s) = None ->
  find_one active (games_collection s) = Some g ->
  let name := get_display_name (from_user update) in
  let to_a := (length (team_1 g) <? length (team_2 g))%nat
              || (negb (length (team_2 g) <? length (team_1 g))%nat && coin) in
  join coin update s
  = (Ok tt,
     mkSt (users_collection s ++ [new_user (tg_id (from_user update)) name])
          (if String.eqb (mode g) "Team" then
             update_one (by_game_id (game_id g))
               (if to_a then set_teams (team_1 g ++ [name]) (team_2 g)
                else set_teams (team_1 g) (team_2 g ++ [name]))
               (games_collection s)
           else games_collection s)
          (user_data s)
          (outbox s
             ++ [ReplyTo (chat_id update)
                   (if String.eqb (mode g) "Team"
                    then WelcomeTeam name (if to_a then TeamA else TeamB)
                    else WelcomeIndividual name)])).
Proof.
  intros Huser Hgame. cbn zeta. unfold join. unfold_handlers.
  rewrite Huser, Hgame.
  destruct (String.eqb (mode g) "Team"); [|reflexivity].
  destruct (length (team_1 g) <? length (team_2 g))%nat; [reflexivity|].
  destruct (length (team_2 g) <? length (team_1 g))%nat; [reflexivity|].
  destruct coin; reflexivity.
Qed.

(** X7. A join is refused, and writes nothing, when the sender already
    has a user document (whether or not a game is active) and when there
    is no active game to join. *)
Theorem join_refused (coin : bool) (update : Update) (s : St) :
  find_one (by_user_id (tg_id (from_user update))) (users_collection s) <> None
  \/ find_one active (games_collection s) = None ->
  exists r, (r = AlreadyInGame \/ r = NoActiveGameJoin) /\
            join coin update s = (Ok tt, said s (ReplyTo (chat_id update) r)).
Proof.
  intros H. unfold join. unfold_handlers.
  destruct (find_one _ (users_collection s)) as [u|] eqn:Hu.
  - exists AlreadyInGame. auto.
  - destruct H as [H|H]; [contradiction|]. rewrite H.
    exists NoActiveGameJoin. auto.
Qed.

(** X8. Whatever the store, a second join by the same sender writes
    nothing: the first one either created the sender's document, which
    the second finds, or was refused for a reason that still holds. *)
Theorem join_twice (coin coin' : bool) (update : Update) (s : St) :
  let s1 := snd (join coin update s) in
  users_collection (snd (join coin' update s1)) = users_collection s1 /\
  games_collection (snd (join coin' update s1)) = games_collection s1 /\
  (find_one active (games_collection s) <> None ->
   join coin' update s1 = (Ok tt, said s1 (ReplyTo (chat_id update) AlreadyInGame))).
Proof.
  intros s1.
  destruct (find_one (by_user_id (tg_id (from_user update))) (users_collection s))
    as [u|] eqn:Hu.
  - assert (Hs1 : s1 = said s (ReplyTo (chat_id update) AlreadyInGame)).
    { unfold s1, join. unfold_handlers. now rewrite Hu. }
    assert (H2 : join coin' update s1
                 = (Ok tt, said s1 (ReplyTo (chat_id update) AlreadyInGame))).
    { unfold join. unfold_handlers. rewrite Hs1. cbn [said users_collection].
      now rewrite Hu. }
    rewrite H2. auto.
  - destruct (find_one active (games_collection s)) as [g|] eqn:Hg.
    + assert (Hfound : find_one (by_user_id (tg_id (from_user update)))
                                (users_collection s1)
                       = Some (new_user (tg_id (from_user update))
                                        (get_display_name (from_user update)))).
      { unfold s1. rewrite (join_accepted _ _ _ _ Hu Hg). cbn [snd users_collection].
        apply find_one_app_None; [exact Hu|].
        unfold by_user_id; cbn. apply Z.eqb_refl. }
      assert (H2 : join coin' update s1
                   = (Ok tt, said s1 (ReplyTo (chat_id update) AlreadyInGame))).
      { unfold join at 1. unfold_handlers. now rewrite Hfound. }
      rewrite H2. auto.
    + assert (Hs1 : s1 = said s (ReplyTo (chat_id update) NoActiveGameJoin)).
      { unfold s1, join. unfold_handlers. now rewrite Hu, Hg. }
      assert (H2 : join coin' update s1
                   = (Ok tt, said s1 (ReplyTo (chat_id update) NoActiveGameJoin))).
      { unfold join. unfold_handlers. rewrite Hs1.
        cbn [said users_collection games_collection]. rewrite Hu.
        cbn [said games_collection]. now rewrite Hg. }
      rewrite H2. repeat split. intros H; contradiction.
Qed.

(** X9. Joining a game whose mode is anything but Team, free text
    included, writes no game: it only appends the sender's document,
    with zero points, zero streak and no last claim. *)
Theorem join_individual (coin : bool) (update : Update) (s : St) (g : Game) :
  find_one (by_user_id (tg_id (from_user update))) (users_collection s) = None ->
  find_one active (games_collection s) = Some g ->
  mode g <> "Team" ->
  let name := get_display_name (from_user update) in
  join coin update s
  = (Ok tt,
     mkSt (users_collection s ++ [mkUser (tg_id (from_user update)) name 0 0 None])
          (games_collection s) (user_data s)
          (outbox s ++ [ReplyTo (chat_id update) (WelcomeIndividual name)])).
Proof.
  intros Hu Hg Hmode. cbn zeta. rewrite (join_accepted _ _ _ _ Hu Hg). cbn zeta.
  destruct (String.eqb_spec (mode g) "Team"); [contradiction|reflexivity].
Qed.

(** X10. Joining keeps the teams balanced: if the rosters of the active
    Team game differ in size by at most one before a join, they still do
    after it, whichever way the random draw falls. *)
Theorem join_keeps_teams_balanced (coin : bool) (update : Update) (s : St) (g : Game) :
  find_one (by_user_id (tg_id (from_user update))) (users_collection s) = None ->
  find_one active (games_collection s) = Some g ->
  mode g = "Team" ->
  NoDup (map game_id (games_collection s)) ->
  balanced g ->
  exists g',
    find_one active (games_collection (snd (join coin update s))) = Some g' /\
    balanced g'.
Proof.
  intros Hu Hg Hmode Hnd [Hb1 Hb2].
  rewrite (join_accepted _ _ _ _ Hu Hg). cbn zeta.
  rewrite Hmode, String.eqb_refl. cbn [snd games_collection].
  destruct (Nat.ltb_spec (length (team_1 g)) (length (team_2 g))) as [Hab|Hab];
    [|destruct (Nat.ltb_spec (length (team_2 g)) (length (team_1 g))) as [Hba|Hba];
      [|destruct coin]];
    cbn [orb andb negb];
    rewrite (find_active_update_by_id (set_teams _ _) _ _ Hnd (fun h => eq_refl) Hg);
    eexists; (split; [reflexivity|]);
    unfold balanced; cbn [set_teams team_1 team_2];
    rewrite ?length_app; cbn [length]; lia.
Qed.

(** ** The setup dialogue, continued *)

(** X11. A setup answer from anyone but the recorded initiator is turned
    down in all three states: the dialogue stays in its state, and
    neither the collections nor the user data are written. *)
Theorem setup_refuses_other_senders (coin : bool) (clock : Z) (update : Update) (s : St) :
  is_initiator update (user_data s) = false ->
  select_mode coin update s
  = (Ok (Goto SELECT_MODE), said s (ReplyTo (chat_id update) (OnlyInitiator SELECT_MODE)))
  /\ set_duration update s
     = (Ok (Goto SET_DURATION),
        said s (ReplyTo (chat_id update) (OnlyInitiator SET_DURATION)))
  /\ confirm_penalties clock update s
     = (Ok (Goto CONFIRM_PENALTIES),
        said s (ReplyTo (chat_id update) (OnlyInitiator CONFIRM_PENALTIES))).
Proof.
  intros H. unfold select_mode, set_duration, confirm_penalties. unfold_handlers.
  rewrite H. repeat split.
Qed.

(** X12. A whole Team setup by one sender, from [/start] to the
    penalties answer, with no game active at the start: it commits one
    active Team game on day 1 whose rosters hold the initiator alone, on
    the team the random draw picked, and the other roster empty; every
    stored user is reset to zero. *)
Theorem team_setup_places_initiator
        (coin : bool) (clock chat : Z) (who : TgUser) (t0 d p : string) (s : St) :
  find_one active (games_collection s) = None ->
  find_one (by_game_id clock) (games_collection s) = None ->
  let s1 := snd (start (mkUpdate chat who t0) s) in
  let s2 := snd (select_mode coin (mkUpdate chat who "Team") s1) in
  let s3 := snd (set_duration (mkUpdate chat who d) s2) in
  let r := confirm_penalties clock (mkUpdate chat who p) s3 in
  let name := get_display_name who in
  fst r = Ok END /\
  games_collection (snd r)
  = games_collection s
      ++ [mkGame clock "Team" d (String.eqb p "Yes")
                 (if coin then [name] else []) (if coin then [] else [name])
                 true 1 clock] /\
  users_collection (snd r)
  = map (fun u => mkUser (user_id u) (display_name u) 0 0 None) (users_collection s).
Proof.
  intros Hnone Hfresh s1 s2 s3 r name.
  assert (H1 : s1 = mkSt (users_collection s) (games_collection s)
                         (mkUserData (Some (tg_id who)) (ud_mode (user_data s))
                                     (ud_duration (user_data s))
                                     (ud_penalties (user_data s))
                                     (ud_team_1 (user_data s))
                                     (ud_team_2 (user_data s)))
                         (outbox s ++ [ReplyTo chat ChooseMode])).
  { unfold s1, start. unfold_handlers. now rewrite Hnone. }
  assert (H2 : exists o2,
             s2 = mkSt (users_collection s) (games_collection s)
                       (mkUserData (Some (tg_id who)) (Some "Team")
                                   (ud_duration (user_data s))
                                   (ud_penalties (user_data s))
                                   (Some (if coin then [name] else []))
                                   (Some (if coin then [] else [name])))
                       o2).
  { unfold s2, select_mode. unfold_handlers. rewrite H1.
    cbn [user_data is_initiator initiator_id from_user tg_id text].
    rewrite Z.eqb_refl, String.eqb_refl. cbn [negb].
    destruct coin; eexists; reflexivity. }
  destruct H2 as [o2 H2].
  assert (H3 : exists o3,
             s3 = mkSt (users_collection s) (games_collection s)
                       (mkUserData (Some (tg_id who)) (Some "Team") (Some d)
                                   (ud_penalties (user_data s))
                                   (Some (if coin then [name] else []))
                                   (Some (if coin then [] else [name])))
                       o3).
  { unfold s3, set_duration. unfold_handlers. rewrite H2.
    cbn [user_data is_initiator initiator_id from_user tg_id text].
    rewrite Z.eqb_refl. cbn [negb]. eexists; reflexivity. }
  destruct H3 as [o3 H3].
  unfold r, confirm_penalties. unfold_handlers. rewrite H3.
  cbn [user_data is_initiator initiator_id from_user tg_id text].
  rewrite Z.eqb_refl. cbn [negb].
  cbn [users_collection games_collection user_data outbox
       ud_mode ud_duration ud_penalties ud_team_1 ud_team_2 game_id default].
  rewrite Hfresh.
  cbn [fst snd users_collection games_collection user_data outbox].
  rewrite update_many_everything. unfold insert_one.
  repeat split.
Qed.

(** ** The leaderboard *)

(** X13. The leaderboard only reads: whatever the store, it returns
    normally, sends exactly one reply and leaves the collections and the
    user data as they were; with no game stored at all the reply is the
    no-game message. *)
Theorem leaderboard_read_only (update : Update) (s : St) :
  exists m,
    leaderboard update s = (Ok tt, said s (ReplyTo (chat_id update) m))
    /\ (games_collection s = [] -> m = NoGameFound).
Proof.
  unfold leaderboard. unfold_handlers.
  destruct (find_one active (games_collection s)) as [g|] eqn:Ha.
  - eexists. split; [reflexivity|]. intros E. rewrite E in Ha. discriminate.
  - cbn [games_collection].
    destruct (most_recent (games_collection s)) as [g|] eqn:Hm.
    + eexists. split; [reflexivity|]. intros E. rewrite E in Hm. discriminate.
    + eexists. split; [reflexivity|]. reflexivity.
Qed.

Lemma insert_desc_perm (u : User) (l : list User) : insert_desc u l ≡ₚ u :: l.
Proof.
  induction l as [|v l IH]; cbn; [reflexivity|].
  destruct (points u <? points v); [|reflexivity].
  rewrite IH. apply Permutation_swap.
Qed.

Lemma sort_points_desc_perm (l : list User) : sort_points_desc l ≡ₚ l.
Proof.
  induction l as [|u l IH]; cbn; [reflexivity|].
  fold (sort_points_desc l). now rewrite insert_desc_perm, IH.
Qed.

Lemma insert_desc_sorted (u : User) (l : list User) :
  StronglySorted desc (map points l) ->
  StronglySorted desc (map points (insert_desc u l)).
Proof.
  induction l as [|v l IH]; cbn; intros Hs.
  - repeat constructor.
  - inversion Hs as [|? ? Hs' Hall]; subst.
    destruct (Z.ltb_spec (points u) (points v)) as [Hlt|Hge]; cbn.
    + constructor; [auto|].
      assert (Hp : map points (insert_desc u l) ≡ₚ points u :: map points l)
        by (rewrite (insert_desc_perm u l); reflexivity).
      rewrite Hp. constructor; [unfold desc; lia|exact Hall].
    + constructor; [exact Hs|].
      constructor; [exact Hge|].
      eapply Forall_impl; [exact Hall|]. unfold desc. intros; lia.
Qed.

Lemma sort_points_desc_sorted (l : list User) :
  StronglySorted desc (map points (sort_points_desc l)).
Proof.
  induction l as [|u l IH]; cbn; [constructor|].
  fold (sort_points_desc l). now apply insert_desc_sorted.
Qed.

(** X14. With an active game in Individual mode, the leaderboard lists
    every stored user exactly once, highest points first. *)
Theorem leaderboard_individual_sorted (update : Update) (s : St) (g : Game) :
  find_one active (games_collection s) = Some g ->
  mode g = "Individual" ->
  exists rs,
    leaderboard update s
    = (Ok tt, said s (ReplyTo (chat_id update) (LeaderboardIndividual rs)))
    /\ rs ≡ₚ rows (users_collection s)
    /\ StronglySorted desc (map snd rs).
Proof.
  intros Ha Hm. unfold leaderboard. unfold_handlers. rewrite Ha, Hm, String.eqb_refl.
  eexists. split; [reflexivity|]. split.
  - unfold rows. now rewrite sort_points_desc_perm.
  - unfold rows. rewrite map_map. cbn [snd]. apply sort_points_desc_sorted.
Qed.

(** ** The scheduled job, continued *)

Lemma day_threshold_None (d : string) (n : Z) :
  day_threshold d = None ->
  duration_exceeded d n = false /\ day_limit_passed d n = false.
Proof.
  unfold day_threshold, duration_exceeded, day_limit_passed.
  destruct (String.eqb d "1 week"); [discriminate|].
  destruct (String.eqb d "2 weeks"); [discriminate|].
  destruct (String.eqb d "1 month"); [discriminate|]. auto.
Qed.


(** ** Durations and days *)

Section DayFacts.
Variable ADMIN_ID : Z.

(** One end-of-day below the limit: the store it leaves. *)
Lemma end_day_goes_on (update : Update) (s : St) (g : Game) :
  is_admin ADMIN_ID update = true ->
  find_one active (games_collection s) = Some g ->
  day_limit_passed (duration g) (day g + 1) = false ->
  exists out,
    end_day ADMIN_ID update s
    = (Ok tt, mkSt (users_collection (day_advanced g s))
                   (games_collection (day_advanced g s))
                   (user_data s) (outbox s ++ out)).
Proof.
  intros Hadmin Ha Hgo. rewrite (end_day_cases _ _ _ _ Hadmin Ha), Hgo.
  unfold bind at 1. unfold reply_text, emit.
  destruct (daily_summary_frame
              (mkSt (users_collection (day_advanced g s))
                    (games_collection (day_advanced g s))
                    (user_data (day_advanced g s))
                    (outbox (day_advanced g s)
                       ++ [ReplyTo (chat_id update) (DayEnded (day g) (day g + 1))])))
    as [out Hout].
  rewrite Hout. cbn [users_collection games_collection user_data outbox day_advanced].
  eexists. now rewrite <- app_assoc.
Qed.

(** X17. A game whose duration text is none of the three offered never
    ends on its own: the scheduled test is false for every number of
    days, and an end-of-day only advances the day, whatever the
    counter. *)
Theorem unrecognized_duration_never_ends (update : Update) (s : St) (g : Game) :
  is_admin ADMIN_ID update = true ->
  find_one active (games_collection s) = Some g ->
  day_threshold (duration g) = None ->
  (forall n, duration_exceeded (duration g) n = false)
  /\ exists out,
       end_day ADMIN_ID update s
       = (Ok tt, mkSt (users_collection (day_advanced g s))
                      (games_collection (day_advanced g s))
                      (user_data s) (outbox s ++ out)).
Proof.
  intros Hadmin Ha Hnone. split.
  - intros n. apply (day_threshold_None _ n Hnone).
  - apply end_day_goes_on; [exact Hadmin|exact Ha|].
    apply (day_threshold_None _ (day g + 1) Hnone).
Qed.

Lemma set_day_same (g : Game) (d : Z) : d = day g -> set_day d g = g.
Proof. intros ->. now destruct g. Qed.

(** X18. Days add up: on an active game with a recognized duration,
    [k] end-of-day commands that stay within the day limit leave the
    game active with its counter [k] higher and every user's points
    untouched; and if the counter has then reached the limit, the next
    end-of-day empties both collections. *)
Theorem end_days_until_threshold
        (update : Update) (k : nat) (s : St) (g : Game) (N : Z) :
  is_admin ADMIN_ID update = true ->
  find_one active (games_collection s) = Some g ->
  NoDup (map game_id (games_collection s)) ->
  day_threshold (duration g) = Some N ->
  day g + Z.of_nat k <= N ->
  let s' := end_days ADMIN_ID k update s in
  find_one active (games_collection s') = Some (set_day (day g + Z.of_nat k) g)
  /\ map points (users_collection s') = map points (users_collection s)
  /\ map user_id (users_collection s') = map user_id (users_collection s)
  /\ (day g + Z.of_nat k = N ->
      users_collection (snd (end_day ADMIN_ID update s')) = []
      /\ games_collection (snd (end_day ADMIN_ID update s')) = []).
Proof.
  intros Hadmin. revert s g.
  induction k as [|k IH]; intros s g Ha Hnd HN Hle; cbn [end_days].
  - cbn zeta. rewrite Z.add_0_r in *.
    rewrite (set_day_same g (day g) eq_refl).
    split; [exact Ha|]. split; [reflexivity|]. split; [reflexivity|].
    intros E.
    rewrite (end_day_cases _ _ _ _ Hadmin Ha), (day_threshold_passed _ _ _ HN).
    assert (Hp : (N <? day g + 1) = true) by (apply Z.ltb_lt; lia). rewrite Hp.
    destruct (day_advanced_still_active s g Ha) as [g' Hg'].
    destruct (end_game_wipes ADMIN_ID update _ g' Hadmin Hg') as (m & -> & _).
    split; reflexivity.
  - assert (Hgo : day_limit_passed (duration g) (day g + 1) = false).
    { rewrite (day_threshold_passed _ _ _ HN). apply Z.ltb_ge. lia. }
    destruct (end_day_goes_on update s g Hadmin Ha Hgo) as [out Hout].
    assert (Hu : users_collection (snd (end_day ADMIN_ID update s))
                 = users_collection (day_advanced g s)) by now rewrite Hout.
    assert (Hg : games_collection (snd (end_day ADMIN_ID update s))
                 = games_collection (day_advanced g s)) by now rewrite Hout.
    clear Hout.
    set (s1 := snd (end_day ADMIN_ID update s)) in *.
    assert (Ha1 : find_one active (games_collection s1) = Some (set_day (day g + 1) g)).
    { rewrite Hg. cbn [day_advanced games_collection].
      apply find_active_update_by_id; auto. }
    assert (Hnd1 : NoDup (map game_id (games_collection s1))).
    { rewrite Hg. cbn [day_advanced games_collection].
      rewrite map_update_one by reflexivity. exact Hnd. }
    specialize (IH s1 (set_day (day g + 1) g) Ha1 Hnd1 HN).
    cbn [set_day day] in IH.
    assert (Hle1 : day g + 1 + Z.of_nat k <= N) by lia.
    specialize (IH Hle1). cbn zeta in IH.
    replace (day g + Z.of_nat (S k)) with (day g + 1 + Z.of_nat k) by lia.
    destruct IH as (IH1 & IH2 & IH3 & IH4).
    cbn zeta. split; [exact IH1|].
    split; [rewrite IH2, Hu; cbn [day_advanced users_collection]; now rewrite map_map|].
    split; [rewrite IH3, Hu; cbn [day_advanced users_collection]; now rewrite map_map|].
    exact IH4.
Qed.
End DayFacts.

(** ** The point commands *)

Lemma inc_points_back (v : Z) (u : User) : inc_points (- v) (inc_points v u) = u.
Proof. destruct u. unfold inc_points. cbn. f_equal. lia. Qed.

Section PointsFacts.
Variable ADMIN_ID : Z.
Variable split : string -> list string.
Variable int : string -> option Z.

(** X19. The point commands never raise, and they write only when they
    report success: unless [set_points] replies that the points were
    set, and unless [admin_override] replies that points were added or
    removed, the store is exactly what it was.  That covers a wrong
    number of words, a word that is not a number, an unknown name and an
    unknown action. *)
Theorem points_commands_write_only_on_success (update : Update) (s : St) :
  (exists r, fst (set_points ADMIN_ID split int update s) = Ok r
             /\ ((exists p n, r = PointsSet p n)
                 \/ snd (set_points ADMIN_ID split int update s) = s))
  /\ (exists r, fst (admin_override ADMIN_ID split int update s) = Ok r
                /\ ((exists v n, r = PointsAdded v n \/ r = PointsRemoved v n)
                    \/ snd (admin_override ADMIN_ID split int update s) = s)).
Proof.
  split.
  - unfold set_points. unfold_handlers.
    repeat case_match; cbn [fst snd]; eexists; (split; [reflexivity|]); eauto.
  - unfold admin_override. unfold_handlers.
    repeat case_match; cbn [fst snd]; eexists; (split; [reflexivity|]); eauto.
Qed.

(** X20. A well-formed [/setpoints] from the administrator: an unknown
    name is reported and nothing is written; otherwise the first user
    with that name, leading at-signs stripped, gets exactly the given
    points, keeps everything else, and every user under another name is
    untouched. *)
Theorem set_points_sets_exactly (update : Update) (s : St) (c n v : string) (p : Z) :
  is_admin ADMIN_ID update = true ->
  split (text update) = [c; n; v] ->
  int v = Some p ->
  let name := lstrip_at n in
  let r := set_points ADMIN_ID split int update s in
  match find_one (by_display_name name) (users_collection s) with
  | None => r = (Ok PointsUserNotFound, s)
  | Some u =>
      fst r = Ok (PointsSet p name) /\
      find_one (by_display_name name) (users_collection (snd r))
      = Some (mkUser (user_id u) (display_name u) p (streak u) (last_claim u)) /\
      find_all (fun d => negb (by_display_name name d)) (users_collection (snd r))
      = find_all (fun d => negb (by_display_name name d)) (users_collection s) /\
      map user_id (users_collection (snd r)) = map user_id (users_collection s) /\
      games_collection (snd r) = games_collection s
  end.
Proof.
  intros Hadmin Hsplit Hint name r. unfold r, set_points.
  rewrite Hadmin, Hsplit, Hint. cbn [negb]. fold name. unfold_handlers.
  destruct (find_one (by_display_name name) (users_collection s)) as [u|] eqn:Hu.
  - cbn [fst snd users_collection games_collection].
    split; [reflexivity|]. split.
    + apply (find_one_update_one _ (put_points p) _ _ Hu).
      now apply (find_one_Some _ _ _ Hu).
    + split; [apply find_all_update_one_others; auto|].
      split; [apply map_update_one; reflexivity|reflexivity].
  - reflexivity.
Qed.

(** X21. Adding points and then removing the same amount from the same
    name restores the users exactly; in between, the first user with
    that name has the amount more. *)
Theorem admin_add_then_remove_restores
        (update update' : Update) (s : St) (u : User)
        (c c' n n' v v' : string) (value : Z) :
  is_admin ADMIN_ID update = true ->
  is_admin ADMIN_ID update' = true ->
  split (text update) = [c; "add"; n; v] ->
  split (text update') = [c'; "remove"; n'; v'] ->
  int v = Some value ->
  int v' = Some value ->
  lstrip_at n' = lstrip_at n ->
  find_one (by_display_name (lstrip_at n)) (users_collection s) = Some u ->
  let r1 := admin_override ADMIN_ID split int update s in
  let r2 := admin_override ADMIN_ID split int update' (snd r1) in
  fst r1 = Ok (PointsAdded value (lstrip_at n)) /\
  find_one (by_display_name (lstrip_at n)) (users_collection (snd r1))
  = Some (mkUser (user_id u) (display_name u) (points u + value) (streak u)
                 (last_claim u)) /\
  fst r2 = Ok (PointsRemoved value (lstrip_at n)) /\
  users_collection (snd r2) = users_collection s.
Proof.
  intros Hadmin Hadmin' Hs Hs' Hi Hi' Hn Hu r1 r2.
  assert (Hq : by_display_name (lstrip_at n) (inc_points value u) = true)
    by now apply (find_one_Some _ _ _ Hu).
  assert (H1 : r1 = (Ok (PointsAdded value (lstrip_at n)),
                     mkSt (update_one (by_display_name (lstrip_at n)) (inc_points value)
                                      (users_collection s))
                          (games_collection s) (user_data s) (outbox s))).
  { unfold r1, admin_override. rewrite Hadmin, Hs, Hi. cbn [negb]. unfold_handlers.
    rewrite Hu. reflexivity. }
  assert (Hu1 : find_one (by_display_name (lstrip_at n)) (users_collection (snd r1))
                = Some (inc_points value u)).
  { rewrite H1. cbn [snd users_collection].
    apply (find_one_update_one _ (inc_points value) _ _ Hu Hq). }
  assert (H2 : r2 = (Ok (PointsRemoved value (lstrip_at n)),
                     mkSt (update_one (by_display_name (lstrip_at n))
                                      (inc_points (- value))
                                      (users_collection (snd r1)))
                          (games_collection (snd r1)) (user_data (snd r1))
                          (outbox (snd r1)))).
  { unfold r2, admin_override. rewrite Hadmin', Hs', Hi', Hn. cbn [negb].
    unfold_handlers. rewrite Hu1. reflexivity. }
  split; [now rewrite H1|]. split; [exact Hu1|]. split; [now rewrite H2|].
  rewrite H2. cbn [snd users_collection]. rewrite H1. cbn [snd users_collection].
  rewrite update_one_twice by (intros d Hd; exact Hd).
  apply (update_one_fixed _ _ _ _ Hu). apply inc_points_back.
Qed.
End PointsFacts.

(** ** The dispatcher *)

Section DispatcherFacts.
Variable ADMIN_ID : Z.

(** X22. Through the dispatcher, a [/start] from a sender outside any
    setup conversation is refused while a game is active: the sender is
    told so, no conversation is opened, and neither collection is
    written. *)
Theorem start_refused_by_dispatcher
        (env : Env) (update : Update) (w : World) (g : Game) :
  conversations w !! (chat_id update, tg_id (from_user update)) = None ->
  find_one active (db_games w) = Some g ->
  let w' := dispatch ADMIN_ID env (Some CmdStart) update w in
  db_users w' = db_users w /\
  db_games w' = db_games w /\
  conversations w' = conversations w /\
  sent w' = sent w ++ [ReplyTo (chat_id update) AlreadyStarted].
Proof.
  intros Hconv Ha. cbn zeta. unfold dispatch. rewrite Hconv.
  unfold run_handler.
  rewrite (start_rejected_when_active update _ g) by exact Ha.
  cbn [conversation_result db_users db_games conversations sent
       users_collection games_collection outbox].
  repeat split. now apply delete_id.
Qed.
End DispatcherFacts.

(** ** Keys stay unique *)

Lemma find_one_None_not_in (i : Z) (us : list User) :
  find_one (by_user_id i) us = None -> i ∉ map user_id us.
Proof.
  induction us as [|u us IH]; cbn; intros H.
  - apply not_elem_of_nil.
  - unfold by_user_id in H at 1.
    destruct (Z.eqb_spec (user_id u) i) as [|Hne]; [discriminate|].
    apply not_elem_of_cons. split; [congruence|auto].
Qed.

Lemma find_game_None_not_in (i : Z) (gs : list Game) :
  find_one (by_game_id i) gs = None -> i ∉ map game_id gs.
Proof.
  induction gs as [|g gs IH]; cbn; intros H.
  - apply not_elem_of_nil.
  - unfold by_game_id in H at 1.
    destruct (Z.eqb_spec (game_id g) i) as [|Hne]; [discriminate|].
    apply not_elem_of_cons. split; [congruence|auto].
Qed.

Lemma users_step_NoDup (us us' : list User) :
  users_step us us' -> NoDup (map user_id us) -> NoDup (map user_id us').
Proof.
  intros [->|[(u & -> & Hu)| ->]] Hnd; [exact Hnd| |constructor].
  rewrite map_app. cbn. apply NoDup_app. split; [exact Hnd|].
  split; [|apply NoDup_singleton].
  intros x Hx [->|Hin]%elem_of_cons; [|now apply elem_of_nil in Hin].
  now apply (find_one_None_not_in _ _ Hu).
Qed.

Lemma games_step_NoDup (gs gs' : list Game) :
  games_step gs gs' -> NoDup (map game_id gs) -> NoDup (map game_id gs').
Proof.
  intros [->|[(g & -> & Hg)| ->]] Hnd; [exact Hnd| |constructor].
  rewrite map_app. cbn. apply NoDup_app. split; [exact Hnd|].
  split; [|apply NoDup_singleton].
  intros x Hx [->|Hin]%elem_of_cons; [|now apply elem_of_nil in Hin].
  now apply (find_game_None_not_in _ _ Hg).
Qed.

Lemma store_step_same (s s' : St) :
  map user_id (users_collection s') = map user_id (users_collection s) ->
  map game_id (games_collection s') = map game_id (games_collection s) ->
  store_step s s'.
Proof. intros Hu Hg. split; left; assumption. Qed.

Lemma store_step_wiped (s s' : St) :
  users_collection s' = [] -> games_collection s' = [] -> store_step s s'.
Proof. intros Hu Hg. split; right; right; assumption. Qed.

Ltac same_keys :=
  apply store_step_same;
  cbn [snd users_collection games_collection said day_advanced];
  rewrite ?update_many_everything, ?map_map, ?map_update_one by reflexivity;
  reflexivity.

Lemma start_step (update : Update) (s : St) : store_step s (snd (start update s)).
Proof.
  unfold start. unfold_handlers.
  destruct (find_one active (games_collection s)); same_keys.
Qed.

Lemma select_mode_step (coin : bool) (update : Update) (s : St) :
  store_step s (snd (select_mode coin update s)).
Proof.
  unfold select_mode. unfold_handlers.
  destruct (is_initiator update (user_data s)); cbn [negb]; [|same_keys].
  destruct (String.eqb (text update) "Team"); [destruct coin|]; same_keys.
Qed.

Lemma set_duration_step (update : Update) (s : St) :
  store_step s (snd (set_duration update s)).
Proof.
  unfold set_duration. unfold_handlers.
  destruct (is_initiator update (user_data s)); same_keys.
Qed.

Lemma confirm_penalties_step (clock : Z) (update : Update) (s : St) :
  store_step s (snd (confirm_penalties clock update s)).
Proof.
  unfold confirm_penalties. unfold_handlers.
  destruct (is_initiator update (user_data s)); cbn [negb]; [|same_keys].
  cbn [users_collection games_collection user_data outbox
       ud_mode ud_duration ud_penalties ud_team_1 ud_team_2 game_id].
  destruct (ud_mode (user_data s)) as [m|]; [|same_keys].
  destruct (ud_duration (user_data s)) as [d|]; [|same_keys].
  cbn [users_collection games_collection user_data outbox
       ud_mode ud_duration ud_penalties ud_team_1 ud_team_2 game_id].
  destruct (find_one (by_game_id clock) (games_collection s)) eqn:Hfresh; [same_keys|].
  cbn [fst snd users_collection games_collection user_data outbox
       ud_mode ud_duration ud_penalties ud_team_1 ud_team_2 game_id].
  split; cbn [snd users_collection games_collection].
  - left. rewrite update_many_everything, map_map. reflexivity.
  - right; left. eexists. split; [reflexivity|exact Hfresh].
Qed.

Lemma claim_step_keys (today : Z) (update : Update) (s : St) :
  store_step s (snd (claim today update s)).
Proof.
  destruct (find_one (by_user_id (tg_id (from_user update))) (users_collection s))
    as [u|] eqn:Hfind.
  - rewrite (claim_existing _ _ _ _ Hfind). cbn zeta.
    destruct (bool_decide _), (negb _); same_keys.
  - rewrite (claim_new _ _ _ Hfind). split; cbn [snd users_collection games_collection].
    + right; left. eexists. split; [reflexivity|exact Hfind].
    + now left.
Qed.

Lemma leaderboard_said (update : Update) (s : St) :
  exists m, leaderboard update s = (Ok tt, said s (ReplyTo (chat_id update) m)).
Proof.
  unfold leaderboard. unfold_handlers.
  destruct (find_one active (games_collection s)).
  - eexists; reflexivity.
  - cbn [games_collection]. destruct (most_recent (games_collection s));
      eexists; reflexivity.
Qed.

Lemma join_step (coin : bool) (update : Update) (s : St) :
  store_step s (snd (join coin update s)).
Proof.
  destruct (find_one (by_user_id (tg_id (from_user update))) (users_collection s))
    as [u|] eqn:Hu.
  - unfold join. unfold_handlers. rewrite Hu. same_keys.
  - destruct (find_one active (games_collection s)) as [g|] eqn:Hg.
    + rewrite (join_accepted _ _ _ _ Hu Hg). cbn zeta.
      split; cbn [snd users_collection games_collection].
      * right; left. eexists. split; [reflexivity|exact Hu].
      * left. destruct (String.eqb (mode g) "Team"); [|reflexivity].
        apply map_update_one. now destruct (_ || _).
    + unfold join. unfold_handlers. rewrite Hu, Hg. same_keys.
Qed.

Lemma check_game_end_step (clock : Z) (s : St) :
  store_step s (snd (check_game_end clock s)).
Proof.
  rewrite check_game_end_unchanged. apply store_step_same; reflexivity.
Qed.

Section AdminSteps.
Variable ADMIN_ID : Z.

Lemma end_game_step (update : Update) (s : St) :
  store_step s (snd (end_game ADMIN_ID update s)).
Proof.
  destruct (is_admin ADMIN_ID update) eqn:Hadmin.
  - destruct (find_one active (games_collection s)) as [g|] eqn:Ha.
    + destruct (end_game_wipes ADMIN_ID update s g Hadmin Ha) as (m & -> & _).
      now apply store_step_wiped.
    + unfold end_game. rewrite Hadmin. cbn [negb]. unfold_handlers. rewrite Ha.
      same_keys.
  - unfold end_game. rewrite Hadmin. cbn [negb]. unfold_handlers. same_keys.
Qed.

Lemma reset_step (update : Update) (s : St) :
  store_step s (snd (reset ADMIN_ID update s)).
Proof.
  unfold reset. destruct (is_admin ADMIN_ID update); cbn [negb]; unfold_handlers;
    same_keys.
Qed.

Lemma end_day_step (update : Update) (s : St) :
  store_step s (snd (end_day ADMIN_ID update s)).
Proof.
  destruct (is_admin ADMIN_ID update) eqn:Hadmin.
  - destruct (find_one active (games_collection s)) as [g|] eqn:Ha.
    + rewrite (end_day_cases _ _ _ _ Hadmin Ha).
      destruct (day_limit_passed (duration g) (day g + 1)) eqn:Hp.
      * destruct (day_advanced_still_active s g Ha) as [g' Hg'].
        destruct (end_game_wipes ADMIN_ID update _ g' Hadmin Hg') as (m & -> & _).
        now apply store_step_wiped.
      * destruct (end_day_goes_on ADMIN_ID update s g Hadmin Ha Hp) as [out Hout].
        rewrite (end_day_cases _ _ _ _ Hadmin Ha), Hp in Hout. rewrite Hout.
        same_keys.
    + unfold end_day. rewrite Hadmin. cbn [negb]. unfold_handlers. rewrite Ha.
      same_keys.
  - unfold end_day. rewrite Hadmin. cbn [negb]. unfold_handlers. same_keys.
Qed.

Lemma run_handler_keys {A} (h : M A) (update : Update) (w : World) :
  (forall s, store_step s (snd (h s))) ->
  ids_unique w -> ids_unique (snd (run_handler h update w)).
Proof.
  intros Hh [Hu Hg]. unfold run_handler.
  specialize (Hh (mkSt (db_users w) (db_games w)
                       (default empty_user_data
                                (all_user_data w !! tg_id (from_user update)))
                       (sent w))).
  destruct (h _) as [r s']. destruct Hh as [Hus Hgs].
  cbn [snd users_collection games_collection] in *.
  split; cbn [snd db_users db_games].
  - eapply users_step_NoDup; eauto.
  - eapply games_step_NoDup; eauto.
Qed.

Lemma conversation_result_keys (key : Z * Z) (r : Res Next) (w : World) :
  ids_unique w -> ids_unique (conversation_result key r w).
Proof. intros H. exact H. Qed.

Lemma step_keys (w : World) (e : Event) :
  ids_unique w -> ids_unique (step ADMIN_ID w e).
Proof.
  intros Hw. destruct e as [env command update|clock]; cbn [step].
  - unfold dispatch.
    destruct (conversations w !! _) as [st|].
    + match goal with
      | |- context [run_handler ?h update w] =>
          pose proof (run_handler_keys h update w) as Hk
      end.
      destruct (run_handler _ update w) as [r w'].
      apply conversation_result_keys. apply Hk; [|exact Hw].
      destruct st; intros s;
        [apply select_mode_step|apply set_duration_step|apply confirm_penalties_step].
    + destruct command as [[| | | | | |]|].
      * pose proof (run_handler_keys (start update) update w (start_step update) Hw) as Hk.
        destruct (run_handler _ update w) as [r w'].
        apply conversation_result_keys. exact Hk.
      * apply run_handler_keys; [apply claim_step_keys|exact Hw].
      * apply run_handler_keys; [|exact Hw]. intros s.
        destruct (leaderboard_said update s) as [m ->]. same_keys.
      * apply run_handler_keys; [apply end_game_step|exact Hw].
      * apply run_handler_keys; [apply reset_step|exact Hw].
      * apply run_handler_keys; [apply end_day_step|exact Hw].
      * apply run_handler_keys; [apply join_step|exact Hw].
      * exact Hw.
  - rewrite cron_unchanged. exact Hw.
Qed.

(** X23. Keys stay unique: in every world the dispatcher and the
    scheduled job can reach from the empty one, no two user documents
    have the same user id and no two games the same [_id]; more
    generally, every event keeps both facts. *)
Theorem run_keeps_ids_unique (events : list Event) :
  ids_unique (run ADMIN_ID events initial_world)
  /\ forall w, ids_unique w -> ids_unique (run ADMIN_ID events w).
Proof.
  assert (H : forall w, ids_unique w -> ids_unique (run ADMIN_ID events w)).
  { unfold run. induction events as [|e events IH]; intros w Hw; cbn [fold_left].
    - exact Hw.
    - apply IH, step_keys, Hw. }
  split; [|exact H].
  apply H. split; cbn; constructor.
Qed.
End AdminSteps.

(** ** No game is kept in an ended state *)










Section EndedGames.
Variable ADMIN_ID : Z.








End EndedGames.

(** ** The further theorems at concrete inputs *)

Lemma reset_zeroes_and_is_idempotent_witness :
  let update := says coach "/reset" in
  let s := points_store in
  is_admin admin_id update = true /\
  users_collection (snd (reset admin_id update s))
  = [mkUser 2 "alice" 0 0 None; mkUser 4 "bella" 0 0 None] /\
  users_collection (snd (reset admin_id update (snd (reset admin_id update s))))
  = users_collection (snd (reset admin_id update s)).
Proof.
  intros update s.
  assert (H : is_admin admin_id update = true) by reflexivity.
  destruct (reset_zeroes_and_is_idempotent admin_id update s H) as (_ & Hu & _ & Hi).
  split; [exact H|]. split; [exact Hu|exact Hi].
Defined.

Lemma not_admin_no_effect_witness :
  let update := says alice "/endgame" in
  let s := store_on_day 7 in
  is_admin admin_id update = false /\
  end_game admin_id update s = (Ok tt, said s (ReplyTo 100 NotAuthorized)) /\
  end_day admin_id update s = (Ok tt, said s (ReplyTo 100 NotAuthorized)) /\
  set_points admin_id words decimal update s = (Ok PointsNotAuthorized, s).
Proof.
  intros update s.
  assert (H : is_admin admin_id update = false) by reflexivity.
  destruct (not_admin_no_effect admin_id update s H) as (H1 & _ & H3 & H4).
  split; [exact H|]. split; [exact H1|]. split; [exact H3|].
  apply (H4 words decimal).
Defined.

Lemma admin_commands_need_active_game_witness :
  let update := says coach "/endday" in
  let s := mkSt [alice_doc] [set_active false (week_game 8)] empty_user_data [] in
  is_admin admin_id update = true /\
  find_one active (games_collection s) = None /\
  end_game admin_id update s = (Ok tt, said s (ReplyTo 100 NoActiveGameToEnd)) /\
  end_day admin_id update s = (Ok tt, said s (ReplyTo 100 NoActiveGameFound)).
Proof.
  intros update s.
  assert (H1 : is_admin admin_id update = true) by reflexivity.
  assert (H2 : find_one active (games_collection s) = None) by reflexivity.
  split; [exact H1|]. split; [exact H2|].
  exact (admin_commands_need_active_game admin_id update s H1 H2).
Defined.

Lemma join_refused_witness :
  let update := says alice "/join" in
  find_one (by_user_id 2) (users_collection team_store) <> None /\
  exists r, (r = AlreadyInGame \/ r = NoActiveGameJoin) /\
            join true update team_store = (Ok tt, said team_store (ReplyTo 100 r)).
Proof.
  intros update.
  assert (H : find_one (by_user_id (tg_id (from_user update)))
                       (users_collection team_store) <> None) by discriminate.
  split; [exact H|].
  exact (join_refused true update team_store (or_introl H)).
Defined.

Lemma join_individual_witness :
  let update := says bob "/join" in
  let s := forever_store in
  find_one (by_user_id 3) (users_collection s) = None /\
  find_one active (games_collection s)
  = Some (mkGame 0 "Individual" "forever" false [] [] true 40 0) /\
  join true update s
  = (Ok tt, mkSt [alice_doc; mkUser 3 "Bob Builder" 0 0 None]
                 (games_collection s) empty_user_data
                 [ReplyTo 100 (WelcomeIndividual "Bob Builder")]).
Proof.
  intros update s.
  assert (H1 : find_one (by_user_id (tg_id (from_user update))) (users_collection s)
               = None) by reflexivity.
  assert (H2 : find_one active (games_collection s)
               = Some (mkGame 0 "Individual" "forever" false [] [] true 40 0))
    by reflexivity.
  assert (H3 : mode (mkGame 0 "Individual" "forever" false [] [] true 40 0) <> "Team")
    by discriminate.
  split; [exact H1|]. split; [exact H2|].
  exact (join_individual true update s _ H1 H2 H3).
Defined.

Lemma join_keeps_teams_balanced_witness :
  let update := says bob "/join" in
  find_one (by_user_id 3) (users_collection team_store) = None /\
  find_one active (games_collection team_store) = Some team_game /\
  balanced team_game /\
  exists g',
    find_one active (games_collection (snd (join false update team_store))) = Some g' /\
    balanced g'.
Proof.
  intros update.
  assert (H1 : find_one (by_user_id (tg_id (from_user update)))
                        (users_collection team_store) = None) by reflexivity.
  assert (H2 : find_one active (games_collection team_store) = Some team_game)
    by reflexivity.
  assert (H3 : mode team_game = "Team") by reflexivity.
  assert (H4 : NoDup (map game_id (games_collection team_store)))
    by apply NoDup_singleton.
  assert (H5 : balanced team_game) by (unfold balanced; cbn; lia).
  split; [exact H1|]. split; [exact H2|]. split; [exact H5|].
  exact (join_keeps_teams_balanced false update team_store team_game H1 H2 H3 H4 H5).
Defined.

Lemma setup_refuses_other_senders_witness :
  let update := says bob "Team" in
  let s := setup_store in
  is_initiator update (user_data s) = false /\
  select_mode true update s
  = (Ok (Goto SELECT_MODE), said s (ReplyTo 100 (OnlyInitiator SELECT_MODE))) /\
  confirm_penalties 0 update s
  = (Ok (Goto CONFIRM_PENALTIES), said s (ReplyTo 100 (OnlyInitiator CONFIRM_PENALTIES))).
Proof.
  intros update s.
  assert (H : is_initiator update (user_data s) = false) by reflexivity.
  destruct (setup_refuses_other_senders true 0 update s H) as (H1 & _ & H3).
  split; [exact H|]. split; [exact H1|exact H3].
Defined.

Lemma team_setup_places_initiator_witness :
  let s := mkSt [alice_doc] [] empty_user_data [] in
  let s1 := snd (start (mkUpdate 100 bob "/start") s) in
  let s2 := snd (select_mode false (mkUpdate 100 bob "Team") s1) in
  let s3 := snd (set_duration (mkUpdate 100 bob "2 weeks") s2) in
  find_one active (games_collection s) = None /\
  find_one (by_game_id 50) (games_collection s) = None /\
  games_collection (snd (confirm_penalties 50 (mkUpdate 100 bob "Yes") s3))
  = [mkGame 50 "Team" "2 weeks" true [] ["Bob Builder"] true 1 50] /\
  users_collection (snd (confirm_penalties 50 (mkUpdate 100 bob "Yes") s3))
  = [mkUser 2 "alice" 0 0 None].
Proof.
  intros s s1 s2 s3.
  assert (H1 : find_one active (games_collection s) = None) by reflexivity.
  assert (H2 : find_one (by_game_id 50) (games_collection s) = None) by reflexivity.
  destruct (team_setup_places_initiator false 50 100 bob "/start" "2 weeks" "Yes" s H1 H2)
    as (_ & Hg & Hu).
  split; [exact H1|]. split; [exact H2|]. split; [exact Hg|exact Hu].
Defined.

Lemma leaderboard_individual_sorted_witness :
  let update := says alice "/leaderboard" in
  find_one active (games_collection points_store) = Some (week_game 2) /\
  mode (week_game 2) = "Individual" /\
  exists rs,
    leaderboard update points_store
    = (Ok tt, said points_store (ReplyTo 100 (LeaderboardIndividual rs)))
    /\ rs ≡ₚ [("alice", 5); ("bella", 7)]
    /\ StronglySorted desc (map snd rs).
Proof.
  intros update.
  assert (H1 : find_one active (games_collection points_store) = Some (week_game 2))
    by reflexivity.
  assert (H2 : mode (week_game 2) = "Individual") by reflexivity.
  split; [exact H1|]. split; [exact H2|].
  exact (leaderboard_individual_sorted update points_store (week_game 2) H1 H2).
Defined.

Lemma unrecognized_duration_never_ends_witness :
  let update := says coach "/endday" in
  let s := forever_store in
  let g := mkGame 0 "Individual" "forever" false [] [] true 40 0 in
  is_admin admin_id update = true /\
  find_one active (games_collection s) = Some g /\
  day_threshold (duration g) = None /\
  exists out,
    end_day admin_id update s
    = (Ok tt, mkSt [mkUser 2 "alice" 5 0 None] [set_day 41 g] empty_user_data out).
Proof.
  intros update s g.
  assert (H1 : is_admin admin_id update = true) by reflexivity.
  assert (H2 : find_one active (games_collection s) = Some g) by reflexivity.
  assert (H3 : day_threshold (duration g) = None) by reflexivity.
  split; [exact H1|]. split; [exact H2|]. split; [exact H3|].
  destruct (unrecognized_duration_never_ends admin_id update s g H1 H2 H3)
    as [_ [out Hout]].
  exists ([] ++ out). exact Hout.
Defined.

Lemma end_days_until_threshold_witness :
  let update := says coach "/endday" in
  let s := store_on_day 1 in
  is_admin admin_id update = true /\
  find_one active (games_collection s) = Some (week_game 1) /\
  NoDup (map game_id (games_collection s)) /\
  day_threshold (duration (week_game 1)) = Some 7 /\
  find_one active (games_collection (end_days admin_id 6 update s)) = Some (week_game 7) /\
  games_collection (snd (end_day admin_id update (end_days admin_id 6 update s))) = [].
Proof.
  intros update s.
  assert (H1 : is_admin admin_id update = true) by reflexivity.
  assert (H2 : find_one active (games_collection s) = Some (week_game 1)) by reflexivity.
  assert (H3 : NoDup (map game_id (games_collection s))) by apply NoDup_singleton.
  assert (H4 : day_threshold (duration (week_game 1)) = Some 7) by reflexivity.
  assert (H5 : day (week_game 1) + Z.of_nat 6 <= 7) by (cbn; lia).
  destruct (end_days_until_threshold admin_id update 6 s (week_game 1) 7 H1 H2 H3 H4 H5)
    as (Ha & _ & _ & Hend).
  split; [exact H1|]. split; [exact H2|]. split; [exact H3|]. split; [exact H4|].
  split; [exact Ha|]. apply Hend. reflexivity.
Defined.

Lemma set_points_sets_exactly_witness :
  let update := says coach "/setpoints @bella 20" in
  let s := points_store in
  is_admin admin_id update = true /\
  words (text update) = ["/setpoints"; "@bella"; "20"] /\
  decimal "20" = Some 20 /\
  fst (set_points admin_id words decimal update s) = Ok (PointsSet 20 "bella") /\
  find_one (by_display_name "bella")
           (users_collection (snd (set_points admin_id words decimal update s)))
  = Some (mkUser 4 "bella" 20 3 (Some 9)).
Proof.
  intros update s.
  assert (H1 : is_admin admin_id update = true) by reflexivity.
  assert (H2 : words (text update) = ["/setpoints"; "@bella"; "20"]) by reflexivity.
  assert (H3 : decimal "20" = Some 20) by reflexivity.
  split; [exact H1|]. split; [exact H2|]. split; [exact H3|].
  pose proof (set_points_sets_exactly admin_id words decimal update s _ _ _ _ H1 H2 H3)
    as H.
  cbn zeta in H.
  change (find_one (by_display_name (lstrip_at "@bella")) (users_collection s))
    with (Some bella_doc) in H.
  destruct H as (Hr & Hf & _). split; [exact Hr|exact Hf].
Defined.

Lemma admin_add_then_remove_restores_witness :
  let update := says coach "/bot add @bella 5" in
  let update' := says coach "/bot remove bella 5" in
  let s := points_store in
  let r1 := admin_override admin_id words decimal update s in
  let r2 := admin_override admin_id words decimal update' (snd r1) in
  is_admin admin_id update = true /\
  words (text update) = ["/bot"; "add"; "@bella"; "5"] /\
  words (text update') = ["/bot"; "remove"; "bella"; "5"] /\
  find_one (by_display_name "bella") (users_collection (snd r1))
  = Some (mkUser 4 "bella" 12 3 (Some 9)) /\
  users_collection (snd r2) = users_collection s.
Proof.
  intros update update' s r1 r2.
  assert (H1 : is_admin admin_id update = true) by reflexivity.
  assert (H2 : words (text update) = ["/bot"; "add"; "@bella"; "5"]) by reflexivity.
  assert (H3 : words (text update') = ["/bot"; "remove"; "bella"; "5"]) by reflexivity.
  assert (H4 : decimal "5" = Some 5) by reflexivity.
  assert (H5 : lstrip_at "bella" = lstrip_at "@bella") by reflexivity.
  assert (H6 : find_one (by_display_name (lstrip_at "@bella")) (users_collection s)
               = Some bella_doc) by reflexivity.
  destruct (admin_add_then_remove_restores admin_id words decimal update update' s
              bella_doc _ _ _ _ _ _ 5 H1 H1 H2 H3 H4 H4 H5 H6)
    as (_ & Hmid & _ & Hback).
  split; [exact H1|]. split; [exact H2|]. split; [exact H3|].
  split; [exact Hmid|exact Hback].
Defined.

Lemma start_refused_by_dispatcher_witness :
  let w := run admin_id alice_sets_up initial_world in
  let update := says bob "/start" in
  let g := mkGame 0 "Individual" "1 week" false [] [] true 1 0 in
  conversations w !! (100, 3) = None /\
  find_one active (db_games w) = Some g /\
  db_games (dispatch admin_id (mkEnv 10 5 true) (Some CmdStart) update w) = [g] /\
  conversations (dispatch admin_id (mkEnv 10 5 true) (Some CmdStart) update w)
  = conversations w.
Proof.
  intros w update g.
  assert (H1 : conversations w !! (chat_id update, tg_id (from_user update)) = None)
    by (vm_compute; reflexivity).
  assert (H2 : find_one active (db_games w) = Some g) by (vm_compute; reflexivity).
  destruct (start_refused_by_dispatcher admin_id (mkEnv 10 5 true) update w g H1 H2)
    as (_ & Hg & Hc & _).
  split; [exact H1|]. split; [exact H2|]. split; [|exact Hc].
  rewrite Hg. vm_compute. reflexivity.
Defined.

